(** * Kuberhealthy state persistence layer (cmd/kuberhealthy/crd.go)

    A shallow embedding of the khstate / khjob persistence functions of
    [crd.go] and the properties of its specification.

    Layout:
    - the Go library functions the file calls ([strings.ToLower],
      [strings.Replace], [strings.Contains], [errors.New],
      [k8sErrors.IsNotFound]), one module per Go package;
    - the documents ([health.WorkloadDetails], [khstatecrd.KuberhealthyState],
      [v1.KuberhealthyJob]);
    - the calls to the remote store as a small free monad [Go], so that a
      function of [crd.go] is a tree of store calls that can be run against
      any client;
    - the functions of [crd.go];
    - an in-memory store following the repository contract;
    - the properties. *)

From Stdlib Require Import ZArith Lia Ascii String List Bool DecimalString.
From stdpp Require Import base gmap strings.

Local Open Scope Z_scope.

(** ** Bytes of a Go string

    A Go string is a sequence of bytes; [string] is used for it, one [ascii]
    per byte. *)

Definition byte_val (a : ascii) : Z := Z.of_N (N_of_ascii a).
Definition byte_chr (z : Z) : ascii := ascii_of_N (Z.to_N z).

(** [byte(x)]: conversion of an integer to a byte keeps the low eight bits. *)
Definition to_byte (z : Z) : Z := Z.land z 0xFF.

Fixpoint string_drop (n : nat) (s : string) : string :=
  match n, s with
  | O, _ => s
  | S n', String _ t => string_drop n' t
  | S _, EmptyString => EmptyString
  end.

Fixpoint string_map (f : ascii -> ascii) (s : string) : string :=
  match s with
  | EmptyString => EmptyString
  | String a t => String (f a) (string_map f t)
  end.

Fixpoint string_forallb (p : ascii -> bool) (s : string) : bool :=
  match s with
  | EmptyString => true
  | String a t => p a && string_forallb p t
  end.

Fixpoint string_existsb (p : ascii -> bool) (s : string) : bool :=
  match s with
  | EmptyString => false
  | String a t => p a || string_existsb p t
  end.

(** ** Package unicode/utf8 *)

Module utf8.

Definition RuneError : Z := 0xFFFD.
Definition RuneSelf : Z := 0x80.
Definition MaxRune : Z := 0x10FFFF.
Definition UTFMax : Z := 4.

Definition surrogateMin : Z := 0xD800.
Definition surrogateMax : Z := 0xDFFF.

Definition t1 : Z := 0x00.
Definition tx : Z := 0x80.
Definition t2 : Z := 0xC0.
Definition t3 : Z := 0xE0.
Definition t4 : Z := 0xF0.
Definition t5 : Z := 0xF8.

Definition maskx : Z := 0x3F.
Definition mask2 : Z := 0x1F.
Definition mask3 : Z := 0x0F.
Definition mask4 : Z := 0x07.

Definition rune1Max : Z := 0x7F.
Definition rune2Max : Z := 0x7FF.
Definition rune3Max : Z := 0xFFFF.

Definition locb : Z := 0x80.
Definition hicb : Z := 0xBF.

(** What the table [first] holds for a leading byte: the byte stands for
    itself ([as]), is no leading byte ([xx]), or starts a sequence of
    [sz] bytes whose second byte lies in [lo..hi] (the [acceptRanges]
    entry of the table). *)
Inductive firstInfo : Type :=
| first_as
| first_xx
| first_seq (sz : nat) (lo hi : Z).

Definition first (s0 : Z) : firstInfo :=
  if s0 <? 0x80 then first_as
  else if s0 <? 0xC2 then first_xx
  else if s0 <? 0xE0 then first_seq 2 locb hicb
  else if s0 =? 0xE0 then first_seq 3 0xA0 hicb
  else if s0 <? 0xED then first_seq 3 locb hicb
  else if s0 =? 0xED then first_seq 3 locb 0x9F
  else if s0 <? 0xF0 then first_seq 3 locb hicb
  else if s0 =? 0xF0 then first_seq 4 0x90 hicb
  else if s0 <? 0xF4 then first_seq 4 locb hicb
  else if s0 =? 0xF4 then first_seq 4 locb 0x8F
  else first_xx.

(** [DecodeRuneInString]: the first rune of [s] and its width in bytes;
    [(RuneError, 0)] for the empty string and [(RuneError, 1)] for an
    encoding that is invalid. *)
Definition DecodeRuneInString (s : string) : Z * nat :=
  match s with
  | EmptyString => (RuneError, 0%nat)
  | String c0 rest =>
    let s0 := byte_val c0 in
    match first s0 with
    | first_as => (s0, 1%nat)
    | first_xx => (RuneError, 1%nat)
    | first_seq sz lo hi =>
      match rest with
      | EmptyString => (RuneError, 1%nat)
      | String c1 rest1 =>
        let s1 := byte_val c1 in
        if (s1 <? lo) || (hi <? s1) then (RuneError, 1%nat)
        else if (sz <=? 2)%nat then
          (Z.lor (Z.shiftl (Z.land s0 mask2) 6) (Z.land s1 maskx), 2%nat)
        else
          match rest1 with
          | EmptyString => (RuneError, 1%nat)
          | String c2 rest2 =>
            let s2 := byte_val c2 in
            if (s2 <? locb) || (hicb <? s2) then (RuneError, 1%nat)
            else if (sz <=? 3)%nat then
              (Z.lor (Z.lor (Z.shiftl (Z.land s0 mask3) 12)
                            (Z.shiftl (Z.land s1 maskx) 6))
                     (Z.land s2 maskx), 3%nat)
            else
              match rest2 with
              | EmptyString => (RuneError, 1%nat)
              | String c3 _ =>
                let s3 := byte_val c3 in
                if (s3 <? locb) || (hicb <? s3) then (RuneError, 1%nat)
                else
                  (Z.lor (Z.lor (Z.lor (Z.shiftl (Z.land s0 mask4) 18)
                                       (Z.shiftl (Z.land s1 maskx) 12))
                                (Z.shiftl (Z.land s2 maskx) 6))
                         (Z.land s3 maskx), 4%nat)
              end
          end
      end
    end
  end.

Definition enc3 (r : Z) : string :=
  String (byte_chr (Z.lor t3 (to_byte (Z.shiftr r 12))))
 (String (byte_chr (Z.lor tx (Z.land (to_byte (Z.shiftr r 6)) maskx)))
 (String (byte_chr (Z.lor tx (Z.land (to_byte r) maskx)))
  EmptyString)).

(** [EncodeRune]: the UTF-8 encoding of [r]; a rune out of range (seen as
    a [uint32]: negative, above [MaxRune], or a surrogate) is written as
    [RuneError]. *)
Definition EncodeRune (r : Z) : string :=
  if r <? 0 then enc3 RuneError
  else if r <=? rune1Max then String (byte_chr (to_byte r)) EmptyString
  else if r <=? rune2Max then
    String (byte_chr (Z.lor t2 (to_byte (Z.shiftr r 6))))
   (String (byte_chr (Z.lor tx (Z.land (to_byte r) maskx)))
    EmptyString)
  else if (MaxRune <? r) || ((surrogateMin <=? r) && (r <=? surrogateMax))
  then enc3 RuneError
  else if r <=? rune3Max then enc3 r
  else
    String (byte_chr (Z.lor t4 (to_byte (Z.shiftr r 18))))
   (String (byte_chr (Z.lor tx (Z.land (to_byte (Z.shiftr r 12)) maskx)))
   (String (byte_chr (Z.lor tx (Z.land (to_byte (Z.shiftr r 6)) maskx)))
   (String (byte_chr (Z.lor tx (Z.land (to_byte r) maskx)))
    EmptyString))).

(** The runes a [for _, c := range s] loop sees: each step decodes one
    rune and moves on by its width.  The length of [s] bounds the number
    of steps. *)
Fixpoint range_loop (steps : nat) (s : string) : list Z :=
  match steps with
  | O => []
  | S steps' =>
    match s with
    | EmptyString => []
    | String _ _ =>
      let '(c, width) := DecodeRuneInString s in
      c :: range_loop steps' (string_drop width s)
    end
  end.

Definition runes (s : string) : list Z := range_loop (String.length s) s.

(** [ValidString]: no step of the range loop meets an invalid encoding. *)
Fixpoint valid_loop (steps : nat) (s : string) : bool :=
  match steps with
  | O => true
  | S steps' =>
    match s with
    | EmptyString => true
    | String _ _ =>
      let '(c, width) := DecodeRuneInString s in
      negb ((width =? 1)%nat && (c =? RuneError))
      && valid_loop steps' (string_drop width s)
    end
  end.

Definition ValidString (s : string) : bool := valid_loop (String.length s) s.

(** A rune that [EncodeRune] writes as itself. *)
Definition ValidRune (r : Z) : bool :=
  (0 <=? r) && (r <=? MaxRune)
  && negb ((surrogateMin <=? r) && (r <=? surrogateMax)).

End utf8.

(** ** Package unicode *)

Module unicode.

Definition MaxASCII : Z := 0x7F.

Section ToLower.
(** [To(LowerCase, r)]: the lookup of [r] in the table [CaseRanges] of
    the Go library.  The table is data of the Go distribution; it is a
    parameter here. *)
Variable To_LowerCase : Z -> Z.

Definition ToLower (r : Z) : Z :=
  if r <=? MaxASCII then
    if (65 <=? r) && (r <=? 90) then r + (97 - 65) else r
  else To_LowerCase r.
End ToLower.

End unicode.

(** ** Package strings *)

Module strings.

Section Map.
Variable mapping : Z -> Z.

(** [Map]: every rune of [s] replaced by its image, a negative image
    dropping the rune, an invalid byte counting as [RuneError].  The
    library returns [s] itself when no rune changes; encoding the runes
    again gives the same bytes ([Map_fixed] below). *)
Definition Map (s : string) : string :=
  fold_right
    (fun c acc =>
       let r := mapping c in
       if 0 <=? r then utf8.EncodeRune r +:+ acc else acc)
    EmptyString (utf8.runes s).
End Map.

Section ToLower.
Variable To_LowerCase : Z -> Z.

Definition isASCII (s : string) : bool :=
  string_forallb (fun c => byte_val c <? utf8.RuneSelf) s.

Definition hasUpper (s : string) : bool :=
  string_existsb (fun c => (65 <=? byte_val c) && (byte_val c <=? 90)) s.

Definition lowerByte (c : ascii) : ascii :=
  if (65 <=? byte_val c) && (byte_val c <=? 90)
  then byte_chr (byte_val c + (97 - 65))
  else c.

Definition ToLower (s : string) : string :=
  if isASCII s then
    if negb (hasUpper s) then s else string_map lowerByte s
  else Map (unicode.ToLower To_LowerCase) s.
End ToLower.

(** [HasPrefix]. *)
Definition HasPrefix (s prefix : string) : bool := String.prefix prefix s.

(** [Contains(s, substr)]: [substr] occurs in [s]. *)
Fixpoint Contains (s substr : string) : bool :=
  HasPrefix s substr
  || match s with
     | EmptyString => false
     | String _ t => Contains t substr
     end.

(** The replacement loop of [Replace] for a non-empty [old]: scanning
    from the left, the next [limit] non-overlapping occurrences of [old]
    become [new] ([None]: every occurrence).  [skip] counts the bytes of
    an occurrence just replaced that are still to be passed over. *)
Fixpoint replace_from (old new : string) (limit : option nat) (skip : nat)
         (s : string) : string :=
  match s with
  | EmptyString => EmptyString
  | String c t =>
    match skip with
    | S skip' => replace_from old new limit skip' t
    | O =>
      match limit with
      | Some O => s
      | _ =>
        if HasPrefix s old
        then new +:+ replace_from old new (pred <$> limit)
                                  (String.length old - 1) t
        else String c (replace_from old new limit O t)
      end
    end
  end.

(** The same loop for the empty [old]: [new] goes in front of the string
    and after each rune, [limit] times at most. *)
Fixpoint insert_from (new : string) (limit : option nat) (steps : nat)
         (s : string) : string :=
  match limit with
  | Some O => s
  | _ =>
    match steps, s with
    | S steps', String _ _ =>
      let '(_, wid) := utf8.DecodeRuneInString s in
      String.substring 0 wid s
      +:+ new +:+ insert_from new (pred <$> limit) steps' (string_drop wid s)
    | _, _ => s
    end
  end.

(** [Replace(s, old, new, n)]: [s] with the first [n] non-overlapping
    occurrences of [old] replaced by [new], all of them when [n < 0]. *)
Definition Replace (s old new : string) (n : Z) : string :=
  if String.eqb old new || (n =? 0) then s
  else
    let limit := if n <? 0 then None else Some (Z.to_nat n) in
    match old with
    | EmptyString =>
      new +:+ insert_from new (pred <$> limit) (String.length s) s
    | String _ _ => replace_from old new limit O s
    end.

End strings.

(** ** [sanitizeResourceName] (crd.go, lines 61-66) *)

Section Sanitize.
Variable To_LowerCase : Z -> Z.

Definition sanitizeResourceName (c : string) : string :=
  (* the name we pass to the CRD must be lowercase *)
  let nameLower := strings.ToLower To_LowerCase c in
  strings.Replace nameLower " " "-" (-1).
End Sanitize.

(** ** Errors

    A Go [error] is a value with an [Error()] text.  Two kinds of errors
    reach [crd.go]: the plain ones made by [errors.New], and the status
    errors of the Kubernetes client, which carry a reason next to their
    text. *)

Module metav1.

Inductive StatusReason : Type :=
| StatusReasonUnknown
| StatusReasonUnauthorized
| StatusReasonForbidden
| StatusReasonNotFound
| StatusReasonAlreadyExists
| StatusReasonConflict
| StatusReasonInvalid
| StatusReasonTimeout
| StatusReasonInternalError
| StatusReasonServiceUnavailable.

(** [ObjectMeta], the metadata every document of the store carries.  The
    declaration is in the Kubernetes library.  Of its fields the model
    has the three that [crd.go] sets or reads (name, namespace, resource
    version) and, for the others, the uid, the labels, the annotations and
    the finalizers; the fields left out (generation, timestamps, owner
    references, managed fields) are treated by [crd.go] as these four
    are. *)
Record ObjectMeta : Type := {
  Name : string;
  Namespace : string;
  ResourceVersion : string;
  UID : string;
  Labels : gmap string string;
  Annotations : gmap string string;
  Finalizers : list string
}.

(** The zero value of the struct. *)
Definition zero : ObjectMeta :=
  {| Name := EmptyString; Namespace := EmptyString;
     ResourceVersion := EmptyString; UID := EmptyString;
     Labels := ∅; Annotations := ∅; Finalizers := [] |}.

Definition SetName (m : ObjectMeta) (name : string) : ObjectMeta :=
  {| Name := name; Namespace := Namespace m;
     ResourceVersion := ResourceVersion m; UID := UID m;
     Labels := Labels m; Annotations := Annotations m;
     Finalizers := Finalizers m |}.

Definition SetNamespace (m : ObjectMeta) (namespace : string) : ObjectMeta :=
  {| Name := Name m; Namespace := namespace;
     ResourceVersion := ResourceVersion m; UID := UID m;
     Labels := Labels m; Annotations := Annotations m;
     Finalizers := Finalizers m |}.

Definition SetResourceVersion (m : ObjectMeta) (version : string)
  : ObjectMeta :=
  {| Name := Name m; Namespace := Namespace m;
     ResourceVersion := version; UID := UID m;
     Labels := Labels m; Annotations := Annotations m;
     Finalizers := Finalizers m |}.

End metav1.

Inductive error : Type :=
| errorString (s : string)
| StatusError (reason : metav1.StatusReason) (message : string).

Definition Error (e : error) : string :=
  match e with
  | errorString s => s
  | StatusError _ message => message
  end.

Module errors.
Definition New (text : string) : error := errorString text.
End errors.

Definition dquote : string := String (ascii_of_nat 34) EmptyString.

Module k8sErrors.

Definition ReasonForError (err : error) : metav1.StatusReason :=
  match err with
  | StatusError reason _ => reason
  | errorString _ => metav1.StatusReasonUnknown
  end.

Definition IsNotFound (err : error) : bool :=
  match ReasonForError err with
  | metav1.StatusReasonNotFound => true
  | _ => false
  end.

Definition IsAlreadyExists (err : error) : bool :=
  match ReasonForError err with
  | metav1.StatusReasonAlreadyExists => true
  | _ => false
  end.

Definition IsConflict (err : error) : bool :=
  match ReasonForError err with
  | metav1.StatusReasonConflict => true
  | _ => false
  end.

(** The texts of the three constructors put the name between quotes.  The
    library formats it with the verb for a quoted string, which also
    escapes quotes, backslashes and bytes that do not print; the texts
    here are those of the library for a name without such bytes. *)
Definition NewNotFound (qualifiedResource name : string) : error :=
  StatusError metav1.StatusReasonNotFound
    (qualifiedResource +:+ " " +:+ dquote +:+ name +:+ dquote
     +:+ " not found").

Definition NewAlreadyExists (qualifiedResource name : string) : error :=
  StatusError metav1.StatusReasonAlreadyExists
    (qualifiedResource +:+ " " +:+ dquote +:+ name +:+ dquote
     +:+ " already exists").

Definition NewConflict (qualifiedResource name : string) (err : error)
  : error :=
  StatusError metav1.StatusReasonConflict
    ("Operation cannot be fulfilled on " +:+ qualifiedResource +:+ " "
     +:+ dquote +:+ name +:+ dquote +:+ ": " +:+ Error err).

End k8sErrors.

(** ** Documents *)

Module time.
(** An instant, as a count of nanoseconds. *)
Definition Time : Type := Z.
Definition zero : Time := 0.
End time.

Module health.

Inductive KHWorkload : Type := KHCheck | KHJob.

(** Modelled from the spec: the payload of a check state document, with
    the fields [crd.go] and the data model name.  [Errors] is a slice and
    can be nil ([None]); [khWorkload] is a pointer. *)
Record WorkloadDetails : Type := {
  OK : bool;
  Errors : option (list string);
  LastRun : time.Time;
  AuthoritativePod : string;
  khWorkload : option KHWorkload
}.

Definition set_AuthoritativePod (d : WorkloadDetails) (pod : string)
  : WorkloadDetails :=
  {| OK := OK d; Errors := Errors d; LastRun := LastRun d;
     AuthoritativePod := pod; khWorkload := khWorkload d |}.

Definition set_LastRun (d : WorkloadDetails) (t : time.Time)
  : WorkloadDetails :=
  {| OK := OK d; Errors := Errors d; LastRun := t;
     AuthoritativePod := AuthoritativePod d; khWorkload := khWorkload d |}.

(** Modelled from the spec: [NewWorkloadDetails] is in package [health];
    the default document of a kind is not ok and has an empty list of
    errors. *)
Definition NewWorkloadDetails (workloadType : KHWorkload)
  : WorkloadDetails :=
  {| OK := false; Errors := Some []; LastRun := time.zero;
     AuthoritativePod := EmptyString; khWorkload := Some workloadType |}.

End health.

Module khstatecrd.

(** Modelled from the spec: a check state document. *)
Record KuberhealthyState : Type := {
  ObjectMeta : metav1.ObjectMeta;
  Spec : health.WorkloadDetails
}.

Definition GetName (s : KuberhealthyState) : string :=
  metav1.Name (ObjectMeta s).

Definition GetResourceVersion (s : KuberhealthyState) : string :=
  metav1.ResourceVersion (ObjectMeta s).

Definition SetResourceVersion (s : KuberhealthyState) (version : string)
  : KuberhealthyState :=
  {| ObjectMeta := metav1.SetResourceVersion (ObjectMeta s) version;
     Spec := Spec s |}.

Definition SetNamespace (s : KuberhealthyState) (namespace : string)
  : KuberhealthyState :=
  {| ObjectMeta := metav1.SetNamespace (ObjectMeta s) namespace;
     Spec := Spec s |}.

(** Modelled from the spec: [NewKuberhealthyState] is in package
    [khstatecrd]; it makes the document of a name and a payload: a new
    struct with the name and the payload set, and nothing else. *)
Definition NewKuberhealthyState (name : string)
           (spec : health.WorkloadDetails) : KuberhealthyState :=
  {| ObjectMeta := metav1.SetName metav1.zero name;
     Spec := spec |}.

(** The zero value of the struct. *)
Definition empty : KuberhealthyState :=
  {| ObjectMeta := metav1.zero;
     Spec := {| health.OK := false; health.Errors := None;
                health.LastRun := time.zero;
                health.AuthoritativePod := EmptyString;
                health.khWorkload := None |} |}.

End khstatecrd.

Module v1.

Definition JobPhase : Type := string.

(** Modelled from the spec: the spec of a job document is a payload that
    this layer does not look into, and a phase. *)
Record JobSpec : Type := {
  Phase : JobPhase;
  Payload : string
}.

Definition set_Phase (s : JobSpec) (phase : JobPhase) : JobSpec :=
  {| Phase := phase; Payload := Payload s |}.

(** Modelled from the spec: a job document. *)
Record KuberhealthyJob : Type := {
  ObjectMeta : metav1.ObjectMeta;
  Spec : JobSpec
}.

Definition GetName (j : KuberhealthyJob) : string :=
  metav1.Name (ObjectMeta j).

Definition GetNamespace (j : KuberhealthyJob) : string :=
  metav1.Namespace (ObjectMeta j).

Definition GetResourceVersion (j : KuberhealthyJob) : string :=
  metav1.ResourceVersion (ObjectMeta j).

Definition SetResourceVersion (j : KuberhealthyJob) (version : string)
  : KuberhealthyJob :=
  {| ObjectMeta := metav1.SetResourceVersion (ObjectMeta j) version;
     Spec := Spec j |}.

Definition set_Spec_Phase (j : KuberhealthyJob) (phase : JobPhase)
  : KuberhealthyJob :=
  {| ObjectMeta := ObjectMeta j; Spec := set_Phase (Spec j) phase |}.

(** Modelled from the spec: [NewKuberhealthyJob] is in package
    [khjob/v1]; it makes the job document of a name, a namespace and a
    spec: a new struct with these three set, and nothing else. *)
Definition NewKuberhealthyJob (name namespace : string) (spec : JobSpec)
  : KuberhealthyJob :=
  {| ObjectMeta :=
       metav1.SetNamespace (metav1.SetName metav1.zero name) namespace;
     Spec := spec |}.

Definition empty : KuberhealthyJob :=
  {| ObjectMeta := metav1.zero;
     Spec := {| Phase := EmptyString; Payload := EmptyString |} |}.

End v1.

(** The interface [KuberhealthyCheck] of package main, as far as the
    readers use it: the name of the check and its namespace. *)
Record KuberhealthyCheck : Type := {
  Name : string;
  CheckNamespace : string
}.

(** ** Calls to the outside

    [crd.go] reaches the remote store through two package-level clients,
    [khStateClient] and [khJobClient], and reads the clock.  A function of
    the file is a tree of such calls: each node is a call and the subtree
    taken depends on what the call returns.  A Go call returns a value and
    an error; [None] is the nil error. *)

Inductive Call : Type :=
| khStateClient_Get (resource name namespace : string)
| khStateClient_Create (state : khstatecrd.KuberhealthyState)
                       (resource namespace : string)
| khStateClient_Update (state : khstatecrd.KuberhealthyState)
                       (resource name namespace : string)
| khJobClient_Get (namespace name : string)
| khJobClient_Update (namespace : string) (job : v1.KuberhealthyJob)
| time_Now.

Definition Resp (c : Call) : Type :=
  match c with
  | khStateClient_Get _ _ _
  | khStateClient_Create _ _ _
  | khStateClient_Update _ _ _ _ => khstatecrd.KuberhealthyState * option error
  | khJobClient_Get _ _
  | khJobClient_Update _ _ => v1.KuberhealthyJob * option error
  | time_Now => time.Time
  end%type.

Inductive Go (A : Type) : Type :=
| Ret (a : A)
| Do (c : Call) (k : Resp c -> Go A).

Arguments Ret {A} a.
Arguments Do {A} c k.

Fixpoint bind {A B : Type} (m : Go A) (f : A -> Go B) : Go B :=
  match m with
  | Ret a => f a
  | Do c k => Do c (fun r => bind (k r) f)
  end.

Definition call (c : Call) : Go (Resp c) := Do c Ret.

#[global] Instance Go_ret : MRet Go := @Ret.
#[global] Instance Go_bind : MBind Go := fun A B f m => bind m f.

(** What a call returned, kept in the record of a run. *)
Inductive Reply : Type :=
| StateReply (state : khstatecrd.KuberhealthyState) (err : option error)
| JobReply (job : v1.KuberhealthyJob) (err : option error)
| TimeReply (t : time.Time).

Definition reply_of (c : Call) : Resp c -> Reply :=
  match c with
  | khStateClient_Get _ _ _
  | khStateClient_Create _ _ _
  | khStateClient_Update _ _ _ _ => fun r => StateReply (fst r) (snd r)
  | khJobClient_Get _ _
  | khJobClient_Update _ _ => fun r => JobReply (fst r) (snd r)
  | time_Now => fun t => TimeReply t
  end.

(** A client answers every call from its state of the world [W], which the
    call may change.  The world holds whatever decides the answers: the
    documents of the store, and the other writers and what they do between
    two calls of this process. *)
Definition Client (W : Type) : Type := forall c : Call, W -> Resp c * W.

Record Outcome (A W : Type) : Type := {
  result : A;
  world : W;
  trace : list (Call * Reply)
}.
Arguments result {A W} o.
Arguments world {A W} o.
Arguments trace {A W} o.

Fixpoint run_from {A W : Type} (client : Client W) (m : Go A) (w : W)
         (done : list (Call * Reply)) : Outcome A W :=
  match m with
  | Ret a => {| result := a; world := w; trace := rev done |}
  | Do c k =>
    let '(r, w') := client c w in
    run_from client (k r) w' ((c, reply_of c r) :: done)
  end.

Definition run {A W : Type} (client : Client W) (m : Go A) (w : W)
  : Outcome A W :=
  run_from client m w [].

Definition isUpdate (c : Call) : bool :=
  match c with
  | khStateClient_Update _ _ _ _ | khJobClient_Update _ _ => true
  | _ => false
  end.

Definition isCreate (c : Call) : bool :=
  match c with
  | khStateClient_Create _ _ _ => true
  | _ => false
  end.

Definition isWrite (c : Call) : bool := isCreate c || isUpdate c.

(** The names a call hands to the store: the name it is keyed by and the
    name inside the document it sends. *)
Definition callNames (c : Call) : list string :=
  match c with
  | khStateClient_Get _ name _ => [name]
  | khStateClient_Create state _ _ => [khstatecrd.GetName state]
  | khStateClient_Update state _ name _ => [name; khstatecrd.GetName state]
  | khJobClient_Get _ name => [name]
  | khJobClient_Update _ job => [v1.GetName job]
  | time_Now => []
  end.

Definition namesOf (t : list (Call * Reply)) : list string :=
  flat_map (fun e => callNames (fst e)) t.

(** ** The functions of crd.go

    The package-level values the file reads are the variables of the
    section.  Writing to the log changes nothing a caller or the store can
    see; the log lines are left out. *)

Section Crd.
Variable To_LowerCase : Z -> Z.
Variable podHostname : string.
Variable stateCRDResource : string.

Local Abbreviation sanitizeResourceName :=
  (sanitizeResourceName To_LowerCase).

(** setCheckStateResource puts a check state's state into the specified
    CRD resource. *)
Definition setCheckStateResource (checkName checkNamespace : string)
           (state : health.WorkloadDetails) : Go (option error) :=
  let name := sanitizeResourceName checkName in
  (* we must fetch the existing state to use the current resource version *)
  '(existingState, err) ←
    call (khStateClient_Get stateCRDResource name checkNamespace);
  match err with
  | Some err =>
    Ret (Some (errors.New ("Error retrieving CRD for: " +:+ name +:+ " "
                           +:+ Error err)))
  | None =>
    let resourceVersion := khstatecrd.GetResourceVersion existingState in
    (* set the pod name that wrote the khstate *)
    let state := health.set_AuthoritativePod state podHostname in
    now ← call time_Now;
    let state := health.set_LastRun state now in
    let khState := khstatecrd.NewKuberhealthyState name state in
    let khState := khstatecrd.SetResourceVersion khState resourceVersion in
    '(_, err) ←
      call (khStateClient_Update khState stateCRDResource name
                                 checkNamespace);
    Ret err
  end.

(** ensureStateResourceExists checks for the existence of the specified
    resource and creates it if it does not exist.  After the branches the
    source reads [state.Spec.Errors] to choose a line of the log (lines
    87-89) and returns nil; [state] is what the get returned, also when the
    get failed. *)
Definition ensureStateResourceExists (checkName checkNamespace : string)
           (workload : health.KHWorkload) : Go (option error) :=
  let name := sanitizeResourceName checkName in
  '(state, err) ←
    call (khStateClient_Get stateCRDResource name checkNamespace);
  match err with
  | Some err =>
    if k8sErrors.IsNotFound err || strings.Contains (Error err) "not found"
    then
      let initialDetails := health.NewWorkloadDetails workload in
      let initialState :=
        khstatecrd.NewKuberhealthyState name initialDetails in
      '(_, err) ←
        call (khStateClient_Create initialState stateCRDResource
                                   checkNamespace);
      match err with
      | Some err =>
        Ret (Some (errors.New ("Error creating custom resource: " +:+ name
                               +:+ ": " +:+ Error err)))
      | None => Ret None
      end
    else Ret (Some err)
  | None => Ret None
  end.

(** getCheckState retrieves the check values from the kuberhealthy
    khstate custom resource. *)
Definition getCheckState (c : KuberhealthyCheck)
  : Go (health.WorkloadDetails * option error) :=
  let state := health.NewWorkloadDetails health.KHCheck in
  let name := sanitizeResourceName (Name c) in
  (* make sure the CRD exists, even when checking status *)
  err ← ensureStateResourceExists (Name c) (CheckNamespace c) health.KHCheck;
  match err with
  | Some err =>
    Ret (state, Some (errors.New ("Error validating CRD exists: " +:+ name
                                  +:+ " " +:+ Error err)))
  | None =>
    '(khstate, err) ←
      call (khStateClient_Get stateCRDResource name (CheckNamespace c));
    match err with
    | Some err =>
      Ret (state,
           Some (errors.New ("Error retrieving custom khstate resource: "
                             +:+ name +:+ " " +:+ Error err)))
    | None => Ret (khstatecrd.Spec khstate, None)
    end
  end.

(** getJobState retrieves the job values from the kuberhealthy khstate
    custom resource. *)
Definition getJobState (j : KuberhealthyCheck)
  : Go (health.WorkloadDetails * option error) :=
  let state := health.NewWorkloadDetails health.KHJob in
  let name := sanitizeResourceName (Name j) in
  (* make sure the CRD exists, even when checking status *)
  err ← ensureStateResourceExists (Name j) (CheckNamespace j) health.KHJob;
  match err with
  | Some err =>
    Ret (state, Some (errors.New ("Error validating CRD exists: " +:+ name
                                  +:+ " " +:+ Error err)))
  | None =>
    '(khstate, err) ←
      call (khStateClient_Get stateCRDResource name (CheckNamespace j));
    match err with
    | Some err =>
      Ret (state,
           Some (errors.New ("Error retrieving custom khstate resource: "
                             +:+ name +:+ " " +:+ Error err)))
    | None => Ret (khstatecrd.Spec khstate, None)
    end
  end.

(** setJobPhase updates the kuberhealthy job phase depending on the state
    of its run. *)
Definition setJobPhase (jobName jobNamespace : string)
           (jobPhase : v1.JobPhase) : Go (option error) :=
  '(kj, err) ← call (khJobClient_Get jobNamespace jobName);
  match err with
  | Some err => Ret (Some err)
  | None =>
    let resourceVersion := v1.GetResourceVersion kj in
    let updatedJob :=
      v1.NewKuberhealthyJob jobName jobNamespace (v1.Spec kj) in
    let updatedJob := v1.SetResourceVersion updatedJob resourceVersion in
    let updatedJob := v1.set_Spec_Phase updatedJob jobPhase in
    '(_, err) ← call (khJobClient_Update jobNamespace updatedJob);
    Ret err
  end.

End Crd.

(** ** The reader of the specification

    The specification describes the two readers as one pattern over the
    workload kind: ensure the document exists, fetch it, return its
    payload; a failure of the first step is reported as a failed existence
    check and a failure of the second as a failed fetch, both naming the
    identifier. *)

Section Reader.
Variable To_LowerCase : Z -> Z.
Variable stateCRDResource : string.

Definition ExistenceCheckFailed (identifier : string) (cause : error)
  : error :=
  errors.New ("Error validating CRD exists: " +:+ identifier +:+ " "
              +:+ Error cause).

Definition FetchFailed (identifier : string) (cause : error) : error :=
  errors.New ("Error retrieving custom khstate resource: " +:+ identifier
              +:+ " " +:+ Error cause).

Definition ensure_then_fetch (kind : health.KHWorkload)
           (name namespace : string)
  : Go (health.WorkloadDetails * option error) :=
  let identifier := sanitizeResourceName To_LowerCase name in
  err ← ensureStateResourceExists To_LowerCase stateCRDResource
                                  name namespace kind;
  match err with
  | Some cause =>
    Ret (health.NewWorkloadDetails kind,
         Some (ExistenceCheckFailed identifier cause))
  | None =>
    '(document, err) ←
      call (khStateClient_Get stateCRDResource identifier namespace);
    match err with
    | Some cause =>
      Ret (health.NewWorkloadDetails kind,
           Some (FetchFailed identifier cause))
    | None => Ret (khstatecrd.Spec document, None)
    end
  end.
End Reader.

(** ** An in-memory store

    Modelled from the spec: the remote store is outside this repository;
    this is the versioned document store of the repository contract.  [get]
    fails with NotFound when the key holds no document; [create] fails with
    AlreadyExists when it holds one and otherwise stores the document under
    a version the store assigns; [update] replaces the document only when
    the version it carries is the current one of the key, fails with
    Conflict otherwise, and assigns a new version.  The texts of the errors
    are those of the Kubernetes client. *)

Module memstore.

Record Store : Type := {
  khstates : gmap (string * string * string) khstatecrd.KuberhealthyState;
  khjobs : gmap (string * string) v1.KuberhealthyJob;
  revision : N;
  clock : time.Time
}.

Definition version_token (n : N) : string :=
  NilEmpty.string_of_uint (N.to_uint n).

Definition khjobResource : string := "khjobs".

(** The cause the store gives for a Conflict. *)
Definition modified : error :=
  errors.New
    ("the object has been modified; "
     +:+ "please apply your changes to the latest version and try again").

Definition stateGet (resource name namespace : string) (s : Store)
  : (khstatecrd.KuberhealthyState * option error) * Store :=
  match khstates s !! (resource, namespace, name) with
  | Some doc => ((doc, None), s)
  | None =>
    ((khstatecrd.empty, Some (k8sErrors.NewNotFound resource name)), s)
  end.

Definition stateCreate (doc : khstatecrd.KuberhealthyState)
           (resource namespace : string) (s : Store)
  : (khstatecrd.KuberhealthyState * option error) * Store :=
  let name := khstatecrd.GetName doc in
  match khstates s !! (resource, namespace, name) with
  | Some _ =>
    ((khstatecrd.empty, Some (k8sErrors.NewAlreadyExists resource name)), s)
  | None =>
    let rev := N.succ (revision s) in
    let stored :=
      khstatecrd.SetResourceVersion
        (khstatecrd.SetNamespace doc namespace) (version_token rev) in
    ((stored, None),
     {| khstates := <[(resource, namespace, name) := stored]> (khstates s);
        khjobs := khjobs s; revision := rev; clock := clock s |})
  end.

Definition stateUpdate (doc : khstatecrd.KuberhealthyState)
           (resource name namespace : string) (s : Store)
  : (khstatecrd.KuberhealthyState * option error) * Store :=
  match khstates s !! (resource, namespace, name) with
  | None =>
    ((khstatecrd.empty, Some (k8sErrors.NewNotFound resource name)), s)
  | Some current =>
    if String.eqb (khstatecrd.GetResourceVersion doc)
                  (khstatecrd.GetResourceVersion current)
    then
      let rev := N.succ (revision s) in
      let stored :=
        khstatecrd.SetResourceVersion
          (khstatecrd.SetNamespace doc namespace) (version_token rev) in
      ((stored, None),
       {| khstates := <[(resource, namespace, name) := stored]> (khstates s);
          khjobs := khjobs s; revision := rev; clock := clock s |})
    else
      ((khstatecrd.empty,
        Some (k8sErrors.NewConflict resource name
                modified)),
       s)
  end.

Definition jobGet (namespace name : string) (s : Store)
  : (v1.KuberhealthyJob * option error) * Store :=
  match khjobs s !! (namespace, name) with
  | Some job => ((job, None), s)
  | None =>
    ((v1.empty, Some (k8sErrors.NewNotFound khjobResource name)), s)
  end.

Definition jobUpdate (namespace : string) (job : v1.KuberhealthyJob)
           (s : Store)
  : (v1.KuberhealthyJob * option error) * Store :=
  let name := v1.GetName job in
  match khjobs s !! (namespace, name) with
  | None =>
    ((v1.empty, Some (k8sErrors.NewNotFound khjobResource name)), s)
  | Some current =>
    if String.eqb (v1.GetResourceVersion job)
                  (v1.GetResourceVersion current)
    then
      let rev := N.succ (revision s) in
      let stored := v1.SetResourceVersion job (version_token rev) in
      ((stored, None),
       {| khstates := khstates s;
          khjobs := <[(namespace, name) := stored]> (khjobs s);
          revision := rev; clock := clock s |})
    else
      ((v1.empty,
        Some (k8sErrors.NewConflict khjobResource name
                modified)),
       s)
  end.

Definition now (s : Store) : time.Time * Store :=
  (clock s,
   {| khstates := khstates s; khjobs := khjobs s; revision := revision s;
      clock := clock s + 1 |}).

Definition client : Client Store :=
  fun c =>
    match c as c0 return Store -> Resp c0 * Store with
    | khStateClient_Get resource name namespace =>
      stateGet resource name namespace
    | khStateClient_Create doc resource namespace =>
      stateCreate doc resource namespace
    | khStateClient_Update doc resource name namespace =>
      stateUpdate doc resource name namespace
    | khJobClient_Get namespace name => jobGet namespace name
    | khJobClient_Update namespace job => jobUpdate namespace job
    | time_Now => now
    end.

Definition empty : Store :=
  {| khstates := ∅; khjobs := ∅; revision := 0%N; clock := 1000 |}.

End memstore.

(** A client scripted by a list of answers: every call of a kind takes the
    next answer of that kind, whatever the store would hold.  It stands for
    a store that other writers change between two calls of this process. *)
Module scripted.

Record Script : Type := {
  stateAnswers : list (khstatecrd.KuberhealthyState * option error);
  jobAnswers : list (v1.KuberhealthyJob * option error);
  ticks : time.Time
}.

Definition nextState (s : Script)
  : (khstatecrd.KuberhealthyState * option error) * Script :=
  match stateAnswers s with
  | [] => ((khstatecrd.empty, Some (errors.New "connection refused")), s)
  | a :: rest =>
    (a, {| stateAnswers := rest; jobAnswers := jobAnswers s;
           ticks := ticks s |})
  end.

Definition nextJob (s : Script)
  : (v1.KuberhealthyJob * option error) * Script :=
  match jobAnswers s with
  | [] => ((v1.empty, Some (errors.New "connection refused")), s)
  | a :: rest =>
    (a, {| stateAnswers := stateAnswers s; jobAnswers := rest;
           ticks := ticks s |})
  end.

Definition client : Client Script :=
  fun c =>
    match c as c0 return Script -> Resp c0 * Script with
    | khStateClient_Get _ _ _ => nextState
    | khStateClient_Create _ _ _ => nextState
    | khStateClient_Update _ _ _ _ => nextState
    | khJobClient_Get _ _ => nextJob
    | khJobClient_Update _ _ => nextJob
    | time_Now => fun s => (ticks s, s)
    end.

End scripted.

(** A case table without letters above ASCII: every rune there is its own
    lower case. *)
Definition noCaseTable (r : Z) : Z := r.

(** The test of line 75: what [ensureStateResourceExists] takes for a
    report that the document is absent. *)
Definition isNotFoundClass (err : error) : bool :=
  k8sErrors.IsNotFound err || strings.Contains (Error err) "not found".

(** The payload of a document with the kind of workload left out. *)
Definition forgetKind (d : health.WorkloadDetails) : health.WorkloadDetails :=
  {| health.OK := health.OK d; health.Errors := health.Errors d;
     health.LastRun := health.LastRun d;
     health.AuthoritativePod := health.AuthoritativePod d;
     health.khWorkload := None |}.

Definition forgetKindState (s : khstatecrd.KuberhealthyState)
  : khstatecrd.KuberhealthyState :=
  {| khstatecrd.ObjectMeta := khstatecrd.ObjectMeta s;
     khstatecrd.Spec := forgetKind (khstatecrd.Spec s) |}.

Definition forgetKindCall (c : Call) : Call :=
  match c with
  | khStateClient_Create state resource namespace =>
    khStateClient_Create (forgetKindState state) resource namespace
  | khStateClient_Update state resource name namespace =>
    khStateClient_Update (forgetKindState state) resource name namespace
  | _ => c
  end.

Definition forgetKindReply (r : Reply) : Reply :=
  match r with
  | StateReply state err => StateReply (forgetKindState state) err
  | _ => r
  end.

Definition forgetKindEvent (e : Call * Reply) : Call * Reply :=
  (forgetKindCall (fst e), forgetKindReply (snd e)).

(** ** Data of the examples *)

Module examples.

Definition notFound : error := k8sErrors.NewNotFound "khstates" "db-ping".

Definition alreadyExists : error :=
  k8sErrors.NewAlreadyExists "khstates" "db-ping".

Definition timedOut : error :=
  StatusError metav1.StatusReasonTimeout "etcdserver: request timed out".

Definition staleVersion : error :=
  k8sErrors.NewConflict "khstates" "db-ping"
    (errors.New "the object has been modified").

Definition passed : health.WorkloadDetails :=
  {| health.OK := true; health.Errors := Some [];
     health.LastRun := time.zero; health.AuthoritativePod := EmptyString;
     health.khWorkload := Some health.KHCheck |}.

Definition dbPing : khstatecrd.KuberhealthyState :=
  {| khstatecrd.ObjectMeta :=
       {| metav1.Name := "db-ping"; metav1.Namespace := "ops";
          metav1.ResourceVersion := "7";
          metav1.UID := EmptyString;
          metav1.Labels := ∅; metav1.Annotations := ∅;
          metav1.Finalizers := [] |};
     khstatecrd.Spec := health.NewWorkloadDetails health.KHCheck |}.

Definition nightly : v1.KuberhealthyJob :=
  {| v1.ObjectMeta :=
       {| metav1.Name := "nightly-job"; metav1.Namespace := "ops";
          metav1.ResourceVersion := "3";
          metav1.UID := EmptyString;
          metav1.Labels := ∅; metav1.Annotations := ∅;
          metav1.Finalizers := [] |};
     v1.Spec := {| v1.Phase := "Running"; v1.Payload := "image: probe" |} |}.

(** The job nightly-job as a cluster holds it: with a uid, a label and a
    finalizer. *)
Definition labelled : v1.KuberhealthyJob :=
  {| v1.ObjectMeta :=
       {| metav1.Name := "nightly-job"; metav1.Namespace := "ops";
          metav1.ResourceVersion := "3";
          metav1.UID := "6f1c2e0a";
          metav1.Labels := {[ "team" := "storage" ]};
          metav1.Annotations := ∅;
          metav1.Finalizers := ["kuberhealthy/cleanup"] |};
     v1.Spec := {| v1.Phase := "Running"; v1.Payload := "image: probe" |} |}.

(** A NotFound status whose text does not hold "not found". *)
Definition vanished : error :=
  StatusError metav1.StatusReasonNotFound
    "the server could not find the requested resource".

(** A store holding the state of check db-ping and the job nightly-job,
    both in namespace ops. *)
Definition store : memstore.Store :=
  {| memstore.khstates := {[ ("khstates", "ops", "db-ping") := dbPing ]};
     memstore.khjobs := {[ ("ops", "nightly-job") := nightly ]};
     memstore.revision := 7%N;
     memstore.clock := 1000 |}.

(** The same store with the job as a cluster holds it. *)
Definition labelledStore : memstore.Store :=
  {| memstore.khstates := {[ ("khstates", "ops", "db-ping") := dbPing ]};
     memstore.khjobs := {[ ("ops", "nightly-job") := labelled ]};
     memstore.revision := 7%N;
     memstore.clock := 1000 |}.

(** The get reports the document absent, through its status only. *)
Definition absent : scripted.Script :=
  {| scripted.stateAnswers := [(khstatecrd.empty, Some vanished)];
     scripted.jobAnswers := [];
     scripted.ticks := 1000 |}.

(** The first writer race: the document is absent when this process
    looks, and another process creates it before this one does. *)
Definition lostRace : scripted.Script :=
  {| scripted.stateAnswers :=
       [(khstatecrd.empty, Some notFound);
        (khstatecrd.empty, Some alreadyExists)];
     scripted.jobAnswers := [];
     scripted.ticks := 1000 |}.

(** The document is absent and the store fails to create it. *)
Definition createTimesOut : scripted.Script :=
  {| scripted.stateAnswers :=
       [(khstatecrd.empty, Some notFound);
        (khstatecrd.empty, Some timedOut)];
     scripted.jobAnswers := [];
     scripted.ticks := 1000 |}.

(** The get fails with an error that is no NotFound status but whose text
    holds "not found"; the create that follows succeeds. *)
Definition backendLost : error :=
  StatusError metav1.StatusReasonInternalError "storage backend not found".

Definition misread : scripted.Script :=
  {| scripted.stateAnswers :=
       [(khstatecrd.empty, Some backendLost); (dbPing, None)];
     scripted.jobAnswers := [];
     scripted.ticks := 1000 |}.

(** Another writer updates the document between the get and the update
    of this process. *)
Definition overtaken : scripted.Script :=
  {| scripted.stateAnswers :=
       [(dbPing, None); (khstatecrd.empty, Some staleVersion)];
     scripted.jobAnswers :=
       [(nightly, None); (v1.empty, Some staleVersion)];
     scripted.ticks := 1000 |}.

End examples.

(** ** Vocabulary of the proofs about the sanitizer *)

(** A surrogate code point. *)
Definition surrogate (r : Z) : Prop := 0xD800 <= r <= 0xDFFF.

(** The second bytes the decoder accepts after a leading byte of a sequence
    of three and of four bytes. *)
Definition accept3 (s0 s1 : Z) : Prop :=
  0xE0 <= s0 <= 0xEF /\ 0x80 <= s1 <= 0xBF
  /\ (s0 = 0xE0 -> 0xA0 <= s1) /\ (s0 = 0xED -> s1 <= 0x9F).

Definition accept4 (s0 s1 : Z) : Prop :=
  0xF0 <= s0 <= 0xF4 /\ 0x80 <= s1 <= 0xBF
  /\ (s0 = 0xF0 -> 0x90 <= s1) /\ (s0 = 0xF4 -> s1 <= 0x8F).

(** What [strings.Replace] with a space and a hyphen does to one byte, and
    to one rune. *)
Definition hyphenate (c : ascii) : ascii :=
  if Ascii.eqb c " " then "-"%char else c.

Definition hyphenateRune (r : Z) : Z := if r =? 32 then 45 else r.

(** The bytes [strings.Map] writes for a list of runes. *)
Definition encodeRunes (rs : list Z) : string :=
  fold_right (fun r acc => utf8.EncodeRune r +:+ acc) EmptyString rs.

(** Every byte is outside ASCII. *)
Definition highBytes (s : string) : bool :=
  string_forallb (fun c => 0x80 <=? byte_val c) s.

(** A piece of the case table: the capital letters of Latin-1 and the
    Kelvin sign, whose lower case is the ASCII letter k. *)
Definition latin1Table (r : Z) : Z :=
  if (0xC0 <=? r) && (r <=? 0xDE) && negb (r =? 0xD7) then r + 32
  else if r =? 0x212A then 0x6B
  else r.

(** ** Vocabulary of the further properties *)

(** The error a call returned. *)
Definition replyError (r : Reply) : option error :=
  match r with
  | StateReply _ err => err
  | JobReply _ err => err
  | TimeReply _ => None
  end.

(** An error returned stems from a call of the run that failed, and holds
    the text of that failure. *)
Definition carriesCause {A W : Type} (o : Outcome A W)
           (returned : option error) : Prop :=
  forall e', returned = Some e' ->
             exists c r e,
               In (c, r) (trace o) /\ replyError r = Some e
               /\ strings.Contains (Error e') (Error e) = true.

(** * Properties *)

(** ** The library functions on examples *)

Example Replace_first_two : strings.Replace "a  b c" " " "--" 2 = "a----b c".
Proof. reflexivity. Qed.

Example Replace_no_overlap : strings.Replace "aaaa" "aa" "b" (-1) = "bb".
Proof. reflexivity. Qed.

Example Replace_empty_old :
  strings.Replace "abc" EmptyString "-" (-1) = "-a-b-c-".
Proof. reflexivity. Qed.

Example Contains_middle :
  strings.Contains "pod not found here" "not found" = true.
Proof. reflexivity. Qed.

(** E-acute is the bytes C3 89; its lower case is C3 A9. *)
Example ToLower_two_bytes :
  strings.ToLower latin1Table
    (String (byte_chr 0xC3) (String (byte_chr 0x89) "COLE"))
  = String (byte_chr 0xC3) (String (byte_chr 0xA9) "cole").
Proof. reflexivity. Qed.

(** The Kelvin sign is the bytes E2 84 AA. *)
Example ToLower_kelvin :
  strings.ToLower latin1Table
    (String (byte_chr 0xE2) (String (byte_chr 0x84)
       (String (byte_chr 0xAA) " Probe")))
  = "k probe".
Proof. reflexivity. Qed.

(** A byte that starts no rune is written as U+FFFD. *)
Example ToLower_invalid_byte :
  strings.ToLower latin1Table (String (byte_chr 0xC3) "(A")
  = String (byte_chr 0xEF) (String (byte_chr 0xBF)
      (String (byte_chr 0xBD) "(a")).
Proof. reflexivity. Qed.

(** ** The sanitizer *)

(** *** Bytes *)

Lemma byte_val_range (a : ascii) : 0 <= byte_val a < 256.
Proof.
  unfold byte_val. pose proof (N_ascii_bounded a) as H. lia.
Qed.

Lemma byte_val_chr (z : Z) : 0 <= z < 256 -> byte_val (byte_chr z) = z.
Proof.
  intros Hz. unfold byte_val, byte_chr.
  rewrite N_ascii_embedding by lia. lia.
Qed.

Lemma byte_chr_val (a : ascii) : byte_chr (byte_val a) = a.
Proof.
  unfold byte_val, byte_chr. rewrite N2Z.id. apply ascii_N_embedding.
Qed.

Lemma byte_val_inj (a b : ascii) : byte_val a = byte_val b -> a = b.
Proof.
  intros H. rewrite <- (byte_chr_val a), <- (byte_chr_val b). by rewrite H.
Qed.

(** *** Bit operations as arithmetic *)

Lemma lor_add (a b k : Z) :
  0 <= k -> 0 <= b < 2 ^ k -> Z.lor (a * 2 ^ k) b = a * 2 ^ k + b.
Proof.
  intros Hk [Hb0 Hb]. symmetry. apply Z.add_nocarry_lor.
  apply Z.bits_inj'. intros n Hn. rewrite Z.land_spec, Z.bits_0.
  destruct (Z.lt_ge_cases n k) as [Hlt|Hge].
  - rewrite Z.mul_pow2_bits_low by exact Hlt. reflexivity.
  - destruct (Z.eq_dec b 0) as [->|Hne].
    + rewrite Z.bits_0. apply andb_false_r.
    + rewrite (Z.bits_above_log2 b n); [apply andb_false_r | exact Hb0 |].
      apply Z.lt_le_trans with k; [|exact Hge].
      apply Z.log2_lt_pow2; [|exact Hb].
      destruct (Z.le_gt_cases b 0); [|assumption].
      exfalso. apply Hne. apply Z.le_antisymm; assumption.
Qed.

Lemma land_mod (z k : Z) : 0 <= k -> Z.land z (2 ^ k - 1) = z mod 2 ^ k.
Proof.
  intros Hk. rewrite Z.sub_1_r, <- Z.ones_equiv. apply Z.land_ones; lia.
Qed.

Lemma to_byte_mod (z : Z) : to_byte z = z mod 256.
Proof. unfold to_byte. apply (land_mod z 8). lia. Qed.

Lemma land_maskx (z : Z) : Z.land z utf8.maskx = z mod 64.
Proof. apply (land_mod z 6). lia. Qed.

Lemma land_mask2 (z : Z) : Z.land z utf8.mask2 = z mod 32.
Proof. apply (land_mod z 5). lia. Qed.

Lemma land_mask3 (z : Z) : Z.land z utf8.mask3 = z mod 16.
Proof. apply (land_mod z 4). lia. Qed.

Lemma land_mask4 (z : Z) : Z.land z utf8.mask4 = z mod 8.
Proof. apply (land_mod z 3). lia. Qed.

Lemma shiftr_6 (z : Z) : Z.shiftr z 6 = z / 64.
Proof. apply (Z.shiftr_div_pow2 z 6). lia. Qed.

Lemma shiftr_12 (z : Z) : Z.shiftr z 12 = z / 4096.
Proof. apply (Z.shiftr_div_pow2 z 12). lia. Qed.

Lemma shiftr_18 (z : Z) : Z.shiftr z 18 = z / 262144.
Proof. apply (Z.shiftr_div_pow2 z 18). lia. Qed.

Lemma lor_tx (m : Z) : 0 <= m < 64 -> Z.lor utf8.tx m = 0x80 + m.
Proof. intros H. apply (lor_add 2 m 6); lia. Qed.

Lemma lor_t2 (q : Z) : 0 <= q < 32 -> Z.lor utf8.t2 q = 0xC0 + q.
Proof. intros H. apply (lor_add 6 q 5); lia. Qed.

Lemma lor_t3 (q : Z) : 0 <= q < 16 -> Z.lor utf8.t3 q = 0xE0 + q.
Proof. intros H. apply (lor_add 14 q 4); lia. Qed.

Lemma lor_t4 (q : Z) : 0 <= q < 8 -> Z.lor utf8.t4 q = 0xF0 + q.
Proof. intros H. apply (lor_add 30 q 3); lia. Qed.

(** Goals of linear arithmetic with division and remainder by constants. *)
Ltac divmod := Z.to_euclidean_division_equations; lia.

Lemma dec2_arith (s0 s1 : Z) :
  Z.lor (Z.shiftl (Z.land s0 utf8.mask2) 6) (Z.land s1 utf8.maskx)
  = s0 mod 32 * 64 + s1 mod 64.
Proof.
  rewrite land_mask2, land_maskx, (Z.shiftl_mul_pow2 _ 6) by lia.
  apply (lor_add (s0 mod 32) (s1 mod 64) 6); [lia | divmod].
Qed.

Lemma dec3_arith (s0 s1 s2 : Z) :
  Z.lor (Z.lor (Z.shiftl (Z.land s0 utf8.mask3) 12)
               (Z.shiftl (Z.land s1 utf8.maskx) 6))
        (Z.land s2 utf8.maskx)
  = s0 mod 16 * 4096 + s1 mod 64 * 64 + s2 mod 64.
Proof.
  rewrite land_mask3, !land_maskx.
  rewrite (Z.shiftl_mul_pow2 _ 12), (Z.shiftl_mul_pow2 _ 6) by lia.
  rewrite (lor_add (s0 mod 16) (s1 mod 64 * 2 ^ 6) 12); [|lia|divmod].
  replace (s0 mod 16 * 2 ^ 12 + s1 mod 64 * 2 ^ 6)
    with ((s0 mod 16 * 64 + s1 mod 64) * 2 ^ 6) by lia.
  rewrite (lor_add _ (s2 mod 64) 6); [lia | lia | divmod].
Qed.

Lemma dec4_arith (s0 s1 s2 s3 : Z) :
  Z.lor (Z.lor (Z.lor (Z.shiftl (Z.land s0 utf8.mask4) 18)
                      (Z.shiftl (Z.land s1 utf8.maskx) 12))
               (Z.shiftl (Z.land s2 utf8.maskx) 6))
        (Z.land s3 utf8.maskx)
  = s0 mod 8 * 262144 + s1 mod 64 * 4096 + s2 mod 64 * 64 + s3 mod 64.
Proof.
  rewrite land_mask4, !land_maskx.
  rewrite (Z.shiftl_mul_pow2 _ 18), (Z.shiftl_mul_pow2 _ 12),
    (Z.shiftl_mul_pow2 _ 6) by lia.
  rewrite (lor_add (s0 mod 8) (s1 mod 64 * 2 ^ 12) 18); [|lia|divmod].
  replace (s0 mod 8 * 2 ^ 18 + s1 mod 64 * 2 ^ 12)
    with ((s0 mod 8 * 64 + s1 mod 64) * 2 ^ 12) by lia.
  rewrite (lor_add _ (s2 mod 64 * 2 ^ 6) 12); [|lia|divmod].
  replace ((s0 mod 8 * 64 + s1 mod 64) * 2 ^ 12 + s2 mod 64 * 2 ^ 6)
    with (((s0 mod 8 * 64 + s1 mod 64) * 64 + s2 mod 64) * 2 ^ 6) by lia.
  rewrite (lor_add _ (s3 mod 64) 6); [lia | lia | divmod].
Qed.

(** Case analysis on the comparisons of the goal, each one replaced by its
    value everywhere and kept as an inequality among the hypotheses. *)
Ltac decide_test tst to_true to_false :=
  let t := fresh "t" in
  let E := fresh "E" in
  remember tst as t eqn:E in *; symmetry in E;
  destruct t; [apply to_true in E | apply to_false in E];
  cbn [andb orb negb] in *; cbv iota in *; try lia.

Ltac decide_tests :=
  repeat match goal with
         | |- context [?a <? ?b] =>
           decide_test (a <? b) (proj1 (Z.ltb_lt a b)) (proj1 (Z.ltb_ge a b))
         | |- context [?a <=? ?b] =>
           decide_test (a <=? b) (proj1 (Z.leb_le a b)) (proj1 (Z.leb_gt a b))
         | |- context [?a =? ?b] =>
           decide_test (a =? b) (proj1 (Z.eqb_eq a b)) (proj1 (Z.eqb_neq a b))
         end.

Ltac utf8_consts :=
  unfold utf8.rune1Max, utf8.rune2Max, utf8.rune3Max, utf8.MaxRune,
    utf8.surrogateMin, utf8.surrogateMax, utf8.locb, utf8.hicb,
    utf8.RuneError, utf8.RuneSelf in *.

Ltac bytes_eq := repeat first [reflexivity | divmod | f_equal].

(** *** EncodeRune, by the number of bytes *)

Lemma EncodeRune_1 (r : Z) :
  0 <= r <= 0x7F -> utf8.EncodeRune r = String (byte_chr r) EmptyString.
Proof.
  intros H. unfold utf8.EncodeRune. utf8_consts. decide_tests.
  rewrite to_byte_mod. bytes_eq.
Qed.

Lemma EncodeRune_2 (r : Z) :
  0x80 <= r <= 0x7FF ->
  utf8.EncodeRune r =
  String (byte_chr (0xC0 + r / 64))
    (String (byte_chr (0x80 + r mod 64)) EmptyString).
Proof.
  intros H. unfold utf8.EncodeRune. utf8_consts. decide_tests.
  rewrite !to_byte_mod, shiftr_6, land_maskx.
  rewrite lor_t2, lor_tx by divmod.
  bytes_eq.
Qed.

Lemma enc3_arith (r : Z) :
  0x800 <= r <= 0xFFFF ->
  utf8.enc3 r =
  String (byte_chr (0xE0 + r / 4096))
    (String (byte_chr (0x80 + (r / 64) mod 64))
       (String (byte_chr (0x80 + r mod 64)) EmptyString)).
Proof.
  intros H. unfold utf8.enc3.
  rewrite !to_byte_mod, shiftr_6, shiftr_12, !land_maskx.
  rewrite lor_t3, !lor_tx by divmod.
  bytes_eq.
Qed.

Lemma EncodeRune_3 (r : Z) :
  0x800 <= r <= 0xFFFF -> ~ surrogate r ->
  utf8.EncodeRune r =
  String (byte_chr (0xE0 + r / 4096))
    (String (byte_chr (0x80 + (r / 64) mod 64))
       (String (byte_chr (0x80 + r mod 64)) EmptyString)).
Proof.
  intros H Hs. unfold surrogate in Hs.
  unfold utf8.EncodeRune. utf8_consts.
  decide_tests; simpl; by apply enc3_arith.
Qed.

Lemma EncodeRune_4 (r : Z) :
  0x10000 <= r <= 0x10FFFF ->
  utf8.EncodeRune r =
  String (byte_chr (0xF0 + r / 262144))
    (String (byte_chr (0x80 + (r / 4096) mod 64))
       (String (byte_chr (0x80 + (r / 64) mod 64))
          (String (byte_chr (0x80 + r mod 64)) EmptyString))).
Proof.
  intros H.
  unfold utf8.EncodeRune. utf8_consts.
  decide_tests; simpl.
  all: rewrite !to_byte_mod, shiftr_6, shiftr_12, shiftr_18, !land_maskx.
  all: rewrite lor_t4, !lor_tx by divmod.
  all: bytes_eq.
Qed.

Lemma ValidRune_spec (r : Z) :
  utf8.ValidRune r = true <-> 0 <= r <= 0x10FFFF /\ ~ surrogate r.
Proof.
  unfold utf8.ValidRune, surrogate. utf8_consts.
  decide_tests; simpl; split; try discriminate; try lia; reflexivity.
Qed.

(** *** DecodeRuneInString, by the leading byte *)

Lemma Decode_1 (c : ascii) (t : string) :
  byte_val c < 0x80 ->
  utf8.DecodeRuneInString (String c t) = (byte_val c, 1%nat).
Proof.
  intros H. unfold utf8.DecodeRuneInString, utf8.first. by decide_tests.
Qed.

Lemma Decode_2 (c0 c1 : ascii) (t : string) :
  0xC2 <= byte_val c0 <= 0xDF ->
  0x80 <= byte_val c1 <= 0xBF ->
  utf8.DecodeRuneInString (String c0 (String c1 t))
  = (byte_val c0 mod 32 * 64 + byte_val c1 mod 64, 2%nat).
Proof.
  intros H0 H1. unfold utf8.DecodeRuneInString, utf8.first.
  utf8_consts. decide_tests. simpl.
  by rewrite dec2_arith.
Qed.

Lemma Decode_3 (c0 c1 c2 : ascii) (t : string) :
  accept3 (byte_val c0) (byte_val c1) ->
  0x80 <= byte_val c2 <= 0xBF ->
  utf8.DecodeRuneInString (String c0 (String c1 (String c2 t)))
  = (byte_val c0 mod 16 * 4096 + byte_val c1 mod 64 * 64
     + byte_val c2 mod 64, 3%nat).
Proof.
  intros (H0 & H1 & Hlo & Hhi) H2.
  unfold utf8.DecodeRuneInString, utf8.first. utf8_consts.
  decide_tests; simpl;
    by rewrite dec3_arith.
Qed.

Lemma Decode_4 (c0 c1 c2 c3 : ascii) (t : string) :
  accept4 (byte_val c0) (byte_val c1) ->
  0x80 <= byte_val c2 <= 0xBF ->
  0x80 <= byte_val c3 <= 0xBF ->
  utf8.DecodeRuneInString (String c0 (String c1 (String c2 (String c3 t))))
  = (byte_val c0 mod 8 * 262144 + byte_val c1 mod 64 * 4096
     + byte_val c2 mod 64 * 64 + byte_val c3 mod 64, 4%nat).
Proof.
  intros (H0 & H1 & Hlo & Hhi) H2 H3.
  unfold utf8.DecodeRuneInString, utf8.first. utf8_consts.
  decide_tests; simpl;
    by rewrite dec4_arith.
Qed.

(** Case analysis along the branches of [DecodeRuneInString]. *)
Ltac byte_ranges :=
  repeat match goal with
         | c : ascii |- _ =>
           lazymatch goal with
           | H : 0 <= byte_val c < 256 |- _ => fail
           | _ => pose proof (byte_val_range c)
           end
         end.

Ltac decode_cases :=
  unfold utf8.DecodeRuneInString, utf8.first; utf8_consts;
  repeat (byte_ranges; decide_tests; simpl;
          try match goal with
              | |- context [match ?t with
                            | EmptyString => _
                            | String _ _ => _
                            end] => destruct t
              end).

Lemma Decode_valid (s : string) :
  utf8.ValidRune (fst (utf8.DecodeRuneInString s)) = true.
Proof.
  destruct s as [|c0 t]; [reflexivity|].
  decode_cases; try reflexivity.
  all: rewrite ?dec2_arith, ?dec3_arith, ?dec4_arith.
  all: apply ValidRune_spec; unfold surrogate; split; divmod.
Qed.

Lemma Decode_width (c : ascii) (t : string) :
  (1 <= snd (utf8.DecodeRuneInString (String c t)))%nat.
Proof. decode_cases; lia. Qed.

Lemma append_nil (b : string) : EmptyString +:+ b = b.
Proof. reflexivity. Qed.

Lemma append_cons (c : ascii) (a b : string) :
  String c a +:+ b = String c (a +:+ b).
Proof. reflexivity. Qed.

(** *** The range loop *)

Lemma string_drop_length (n : nat) (s : string) :
  (String.length (string_drop n s) <= String.length s)%nat.
Proof.
  revert s. induction n as [|n IH]; intros s; [simpl; lia|].
  destruct s as [|c t]; simpl; [lia|]. specialize (IH t). lia.
Qed.

Lemma range_loop_fuel (n m : nat) (s : string) :
  (String.length s <= n)%nat -> (String.length s <= m)%nat ->
  utf8.range_loop n s = utf8.range_loop m s.
Proof.
  revert m s. induction n as [|n IH]; intros m s Hn Hm.
  - destruct s; [by destruct m | simpl in Hn; lia].
  - destruct s as [|c t]; [by destruct m|].
    destruct m as [|m]; [simpl in Hm; lia|].
    cbn [utf8.range_loop].
    pose proof (Decode_width c t) as Hw.
    destruct (utf8.DecodeRuneInString (String c t)) as [r w].
    simpl in Hw. destruct w as [|w]; [lia|].
    f_equal. cbn [string_drop].
    pose proof (string_drop_length w t). simpl in Hn, Hm.
    apply IH; lia.
Qed.

Lemma runes_nil : utf8.runes EmptyString = [].
Proof. reflexivity. Qed.

Lemma runes_step (c : ascii) (t : string) :
  utf8.runes (String c t) =
  fst (utf8.DecodeRuneInString (String c t))
  :: utf8.runes (string_drop (snd (utf8.DecodeRuneInString (String c t)))
                             (String c t)).
Proof.
  unfold utf8.runes at 1. cbn [String.length utf8.range_loop].
  pose proof (Decode_width c t) as Hw.
  destruct (utf8.DecodeRuneInString (String c t)) as [r w].
  simpl in *. f_equal. unfold utf8.runes.
  destruct w as [|w]; [lia|]. cbn [string_drop].
  pose proof (string_drop_length w t).
  apply range_loop_fuel; lia.
Qed.

Lemma runes_valid (s : string) :
  Forall (fun r => utf8.ValidRune r = true) (utf8.runes s).
Proof.
  unfold utf8.runes. generalize (String.length s) as n. intros n.
  revert s. induction n as [|n IH]; intros s; [constructor|].
  destruct s as [|c t]; [constructor|]. cbn [utf8.range_loop].
  pose proof (Decode_valid (String c t)) as Hv.
  destruct (utf8.DecodeRuneInString (String c t)) as [r w].
  constructor; [exact Hv | apply IH].
Qed.

(** Decoding what [EncodeRune] wrote gives the rune back. *)
Lemma runes_EncodeRune (r : Z) (t : string) :
  utf8.ValidRune r = true ->
  utf8.runes (utf8.EncodeRune r +:+ t) = r :: utf8.runes t.
Proof.
  intros Hv. apply ValidRune_spec in Hv. destruct Hv as [Hr Hs].
  unfold surrogate in Hs.
  destruct (Z.le_gt_cases r 0x7F) as [H1|H1];
    [|destruct (Z.le_gt_cases r 0x7FF) as [H2|H2];
      [|destruct (Z.le_gt_cases r 0xFFFF) as [H3|H3]]].
  - rewrite EncodeRune_1 by lia. rewrite !append_cons, append_nil.
    rewrite runes_step, Decode_1 by (rewrite byte_val_chr; lia).
    simpl. rewrite byte_val_chr by lia. reflexivity.
  - rewrite EncodeRune_2 by lia. rewrite !append_cons, append_nil.
    rewrite runes_step, Decode_2 by (rewrite byte_val_chr; divmod).
    simpl. rewrite !byte_val_chr by divmod. f_equal. divmod.
  - rewrite EncodeRune_3 by (unfold surrogate; lia).
    rewrite !append_cons, append_nil.
    rewrite runes_step, Decode_3;
      [|unfold accept3; rewrite !byte_val_chr by divmod; divmod
       |rewrite byte_val_chr; divmod].
    simpl. rewrite !byte_val_chr by divmod. f_equal. divmod.
  - rewrite EncodeRune_4 by lia. rewrite !append_cons, append_nil.
    rewrite runes_step, Decode_4;
      [|unfold accept4; rewrite !byte_val_chr by divmod; divmod
       |rewrite byte_val_chr; divmod
       |rewrite byte_val_chr; divmod].
    simpl. rewrite !byte_val_chr by divmod. f_equal. divmod.
Qed.

(** *** Map on a string it does not change

    The library returns the string itself when the mapping moves no rune
    of it; the bytes [Map] writes here are the same. *)

Lemma reencode (c : ascii) (t : string) :
  let s := String c t in
  let r := fst (utf8.DecodeRuneInString s) in
  let w := snd (utf8.DecodeRuneInString s) in
  w <> 1%nat \/ r <> utf8.RuneError ->
  utf8.EncodeRune r +:+ string_drop w s = s.
Proof.
  cbv zeta. decode_cases; intros Hok;
    try (exfalso; destruct Hok as [Hok|Hok]; apply Hok; reflexivity).
  all: rewrite ?dec2_arith, ?dec3_arith, ?dec4_arith.
  all: first [ rewrite EncodeRune_1 by lia
             | rewrite EncodeRune_2 by divmod
             | rewrite EncodeRune_3 by (unfold surrogate; divmod)
             | rewrite EncodeRune_4 by divmod ].
  all: rewrite !append_cons, append_nil.
  all: repeat match goal with
              | |- String _ _ = String _ _ => f_equal
              | |- byte_chr _ = _ =>
                apply byte_val_inj; rewrite byte_val_chr by divmod; divmod
              end.
Qed.

Lemma Map_fixed_loop (mapping : Z -> Z) (n : nat) (s : string) :
  utf8.valid_loop n s = true ->
  (String.length s <= n)%nat ->
  Forall (fun c => mapping c = c) (utf8.range_loop n s) ->
  fold_right
    (fun c acc =>
       let r := mapping c in
       if 0 <=? r then utf8.EncodeRune r +:+ acc else acc)
    EmptyString (utf8.range_loop n s) = s.
Proof.
  revert s. induction n as [|n IH]; intros s Hvalid Hlen Hfix.
  - destruct s; [reflexivity | simpl in Hlen; lia].
  - destruct s as [|c t]; [reflexivity|].
    cbn [utf8.range_loop utf8.valid_loop] in *.
    pose proof (reencode c t) as Hre. cbv zeta in Hre.
    pose proof (Decode_valid (String c t)) as Hv.
    pose proof (Decode_width c t) as Hw.
    destruct (utf8.DecodeRuneInString (String c t)) as [r w].
    cbn [fst snd] in *. apply andb_true_iff in Hvalid.
    destruct Hvalid as [Hstep Hrest]. inversion Hfix as [|? ? Hr Hfix']; subst.
    cbn [fold_right]. cbv zeta. rewrite Hr.
    apply ValidRune_spec in Hv.
    destruct (Z.leb_spec 0 r); [|lia].
    rewrite IH; [| exact Hrest | | exact Hfix'].
    + apply Hre. apply negb_true_iff, andb_false_iff in Hstep.
      destruct Hstep as [Hstep|Hstep];
        [left; by apply Nat.eqb_neq | right; by apply Z.eqb_neq].
    + destruct w as [|w]; [lia|]. cbn [string_drop].
      pose proof (string_drop_length w t). simpl in Hlen. lia.
Qed.

(** [Map] returns a valid string as it is when the mapping moves none of
    its runes. *)
Lemma Map_fixed (mapping : Z -> Z) (s : string) :
  utf8.ValidString s = true ->
  Forall (fun c => mapping c = c) (utf8.runes s) ->
  strings.Map mapping s = s.
Proof.
  intros Hvalid Hfix. unfold strings.Map, utf8.runes.
  apply Map_fixed_loop; [exact Hvalid | lia | exact Hfix].
Qed.

(** *** Replace of a space by a hyphen, byte by byte *)

Lemma Replace_space_hyphen (s : string) :
  strings.Replace s " " "-" (-1) = string_map hyphenate s.
Proof.
  change (strings.Replace s " " "-" (-1))
    with (strings.replace_from " " "-" None O s).
  induction s as [|c t IH]; [reflexivity|].
  cbn [strings.replace_from string_map]. unfold strings.HasPrefix.
  cbn [String.prefix]. unfold hyphenate.
  destruct (ascii_dec " " c) as [<-|Hne].
  - replace (String.prefix EmptyString t) with true by (by destruct t).
    cbn [fmap option_fmap option_map String.length Nat.sub].
    rewrite IH. reflexivity.
  - rewrite IH. destruct (Ascii.eqb_spec c " ") as [->|_]; [done|reflexivity].
Qed.

Lemma hyphenate_idem (c : ascii) : hyphenate (hyphenate c) = hyphenate c.
Proof.
  unfold hyphenate. destruct (Ascii.eqb_spec c " ") as [->|Hne];
    [reflexivity|].
  by destruct (Ascii.eqb_spec c " ").
Qed.

Lemma string_map_hyphenate_idem (s : string) :
  string_map hyphenate (string_map hyphenate s) = string_map hyphenate s.
Proof.
  induction s as [|c t IH]; [reflexivity|]. simpl.
  by rewrite hyphenate_idem, IH.
Qed.

Lemma string_map_app (f : ascii -> ascii) (a b : string) :
  string_map f (a +:+ b) = string_map f a +:+ string_map f b.
Proof.
  induction a as [|c a IH]; [reflexivity|].
  rewrite append_cons. cbn [string_map]. by rewrite append_cons, IH.
Qed.

Lemma string_existsb_app (p : ascii -> bool) (a b : string) :
  string_existsb p (a +:+ b) = string_existsb p a || string_existsb p b.
Proof.
  induction a as [|c a IH]; [reflexivity|].
  rewrite append_cons. cbn [string_existsb]. by rewrite IH, orb_assoc.
Qed.

Lemma byte_val_space : byte_val " " = 32.
Proof. reflexivity. Qed.

Lemma byte_val_hyphen : byte_val "-" = 45.
Proof. reflexivity. Qed.

Lemma hyphenate_val (c : ascii) :
  byte_val (hyphenate c) = hyphenateRune (byte_val c).
Proof.
  unfold hyphenate, hyphenateRune.
  destruct (Ascii.eqb_spec c " ") as [->|Hne]; [reflexivity|].
  destruct (Z.eqb_spec (byte_val c) 32) as [Heq|_]; [|reflexivity].
  exfalso. apply Hne. apply byte_val_inj. by rewrite Heq.
Qed.

Lemma lowerByte_val (c : ascii) :
  byte_val c < 0x80 ->
  byte_val (strings.lowerByte c)
  = if (65 <=? byte_val c) && (byte_val c <=? 90)
    then byte_val c + 32 else byte_val c.
Proof.
  intros H. unfold strings.lowerByte.
  destruct ((65 <=? byte_val c) && (byte_val c <=? 90)) eqn:Hup;
    [|reflexivity].
  apply andb_true_iff in Hup. rewrite byte_val_chr; lia.
Qed.

(** *** ToLower of an ASCII string *)

Lemma lowerByte_id (s : string) :
  strings.hasUpper s = false -> string_map strings.lowerByte s = s.
Proof.
  unfold strings.hasUpper. induction s as [|c t IH]; [reflexivity|].
  cbn [string_existsb string_map]. intros H.
  apply orb_false_iff in H. destruct H as [Hc Ht].
  rewrite (IH Ht). unfold strings.lowerByte. by rewrite Hc.
Qed.

Lemma ToLower_ASCII (tbl : Z -> Z) (s : string) :
  strings.isASCII s = true ->
  strings.ToLower tbl s = string_map strings.lowerByte s.
Proof.
  intros H. unfold strings.ToLower. rewrite H.
  destruct (strings.hasUpper s) eqn:Hu; [reflexivity|].
  simpl. symmetry. by apply lowerByte_id.
Qed.

Lemma ToLower_fixed (tbl : Z -> Z) (y : string) :
  strings.hasUpper y = false ->
  (strings.isASCII y = false ->
   strings.Map (unicode.ToLower tbl) y = y) ->
  strings.ToLower tbl y = y.
Proof.
  intros Hu Hmap. unfold strings.ToLower. rewrite Hu.
  destruct (strings.isASCII y); [reflexivity | by apply Hmap].
Qed.

Lemma sanitize_ASCII_clean (s : string) :
  strings.isASCII s = true ->
  let y := string_map hyphenate (string_map strings.lowerByte s) in
  strings.isASCII y = true /\ strings.hasUpper y = false.
Proof.
  unfold strings.isASCII, strings.hasUpper, utf8.RuneSelf.
  induction s as [|c t IH]; [done|].
  cbn [string_forallb string_map string_existsb]. intros H.
  apply andb_true_iff in H. destruct H as [Hc Ht].
  destruct (IH Ht) as [IH1 IH2]. cbv zeta in *. rewrite IH1, IH2.
  apply Z.ltb_lt in Hc.
  rewrite hyphenate_val, lowerByte_val by exact Hc.
  unfold hyphenateRune. pose proof (byte_val_range c) as Hr.
  set (v := byte_val c) in *.
  destruct (Z.leb_spec 65 v), (Z.leb_spec v 90); cbn [andb];
    match goal with
    | |- context [?a =? 32] => destruct (Z.eqb_spec a 32)
    end; split;
    (apply andb_true_iff || apply orb_false_iff); split;
    try reflexivity; try (apply Z.ltb_lt; lia);
    apply andb_false_iff; rewrite Z.leb_gt, Z.leb_gt; lia.
Qed.

(** *** Strings of encoded runes *)

Lemma Map_encodeRunes (f : Z -> Z) (s : string) :
  Forall (fun c => utf8.ValidRune (f c) = true) (utf8.runes s) ->
  strings.Map f s = encodeRunes (map f (utf8.runes s)).
Proof.
  unfold strings.Map. induction 1 as [|c l Hc _ IH]; [reflexivity|].
  cbn [fold_right map encodeRunes]. rewrite IH.
  apply ValidRune_spec in Hc.
  destruct (Z.leb_spec 0 (f c)); [reflexivity | lia].
Qed.

Lemma runes_encodeRunes (rs : list Z) :
  Forall (fun r => utf8.ValidRune r = true) rs ->
  utf8.runes (encodeRunes rs) = rs.
Proof.
  induction 1 as [|r l Hr _ IH]; [reflexivity|].
  cbn [encodeRunes fold_right]. rewrite runes_EncodeRune by exact Hr.
  f_equal. exact IH.
Qed.

Lemma EncodeRune_high (r : Z) :
  utf8.ValidRune r = true -> 0x80 <= r ->
  highBytes (utf8.EncodeRune r) = true.
Proof.
  intros Hv Hr. apply ValidRune_spec in Hv. destruct Hv as [Hb Hs].
  unfold highBytes.
  destruct (Z.le_gt_cases r 0x7FF) as [H2|H2];
    [|destruct (Z.le_gt_cases r 0xFFFF) as [H3|H3]].
  - rewrite EncodeRune_2 by lia. cbn [string_forallb].
    rewrite !byte_val_chr by divmod.
    repeat (apply andb_true_iff; split); try reflexivity;
      apply Z.leb_le; divmod.
  - rewrite EncodeRune_3 by (try exact Hs; lia). cbn [string_forallb].
    rewrite !byte_val_chr by divmod.
    repeat (apply andb_true_iff; split); try reflexivity;
      apply Z.leb_le; divmod.
  - rewrite EncodeRune_4 by lia. cbn [string_forallb].
    rewrite !byte_val_chr by divmod.
    repeat (apply andb_true_iff; split); try reflexivity;
      apply Z.leb_le; divmod.
Qed.

Lemma hyphenate_high (s : string) :
  highBytes s = true -> string_map hyphenate s = s.
Proof.
  unfold highBytes. induction s as [|c t IH]; [reflexivity|].
  cbn [string_forallb string_map]. intros H.
  apply andb_true_iff in H. destruct H as [Hc Ht]. rewrite (IH Ht).
  apply Z.leb_le in Hc. unfold hyphenate.
  destruct (Ascii.eqb_spec c " ") as [->|_]; [|reflexivity].
  rewrite byte_val_space in Hc. lia.
Qed.

Lemma hasUpper_high (s : string) :
  highBytes s = true -> strings.hasUpper s = false.
Proof.
  unfold highBytes, strings.hasUpper.
  induction s as [|c t IH]; [reflexivity|].
  cbn [string_forallb string_existsb]. intros H.
  apply andb_true_iff in H. destruct H as [Hc Ht]. rewrite (IH Ht).
  apply Z.leb_le in Hc. apply orb_false_iff. split; [|reflexivity].
  apply andb_false_iff. right. apply Z.leb_gt. lia.
Qed.

Lemma ValidRune_hyphenateRune (r : Z) :
  utf8.ValidRune r = true -> utf8.ValidRune (hyphenateRune r) = true.
Proof.
  intros H. unfold hyphenateRune.
  destruct (Z.eqb_spec r 32); [reflexivity | exact H].
Qed.

Lemma hyphenate_EncodeRune (r : Z) :
  utf8.ValidRune r = true ->
  string_map hyphenate (utf8.EncodeRune r)
  = utf8.EncodeRune (hyphenateRune r).
Proof.
  intros Hv. pose proof Hv as Hv'. apply ValidRune_spec in Hv'.
  destruct Hv' as [Hb Hs].
  destruct (Z.le_gt_cases r 0x7F) as [H1|H1].
  - assert (0 <= hyphenateRune r <= 0x7F) as Hh.
    { unfold hyphenateRune. destruct (Z.eqb_spec r 32); lia. }
    rewrite !EncodeRune_1 by lia. cbn [string_map]. f_equal.
    apply byte_val_inj.
    rewrite hyphenate_val, !byte_val_chr by lia. reflexivity.
  - rewrite hyphenate_high by (apply EncodeRune_high; [exact Hv | lia]).
    unfold hyphenateRune. destruct (Z.eqb_spec r 32); [lia | reflexivity].
Qed.

Lemma hasUpper_EncodeRune (r : Z) :
  utf8.ValidRune r = true -> ~ 65 <= r <= 90 ->
  strings.hasUpper (utf8.EncodeRune r) = false.
Proof.
  intros Hv Hup. pose proof Hv as Hv'. apply ValidRune_spec in Hv'.
  destruct Hv' as [Hb Hs].
  destruct (Z.le_gt_cases r 0x7F) as [H1|H1].
  - rewrite EncodeRune_1 by lia. unfold strings.hasUpper.
    cbn [string_existsb]. rewrite byte_val_chr by lia.
    apply orb_false_iff. split; [|reflexivity].
    apply andb_false_iff. rewrite !Z.leb_gt. lia.
  - apply hasUpper_high, EncodeRune_high; [exact Hv | lia].
Qed.

Lemma hyphenate_encodeRunes (rs : list Z) :
  Forall (fun r => utf8.ValidRune r = true) rs ->
  string_map hyphenate (encodeRunes rs)
  = encodeRunes (map hyphenateRune rs).
Proof.
  induction 1 as [|r l Hr _ IH]; [reflexivity|].
  cbn [encodeRunes fold_right map].
  rewrite string_map_app, hyphenate_EncodeRune by exact Hr.
  f_equal. exact IH.
Qed.

Lemma hasUpper_encodeRunes (rs : list Z) :
  Forall (fun r => utf8.ValidRune r = true /\ ~ 65 <= r <= 90) rs ->
  strings.hasUpper (encodeRunes rs) = false.
Proof.
  induction 1 as [|r l [Hr Hup] _ IH]; [reflexivity|].
  cbn [encodeRunes fold_right]. unfold strings.hasUpper in *.
  rewrite string_existsb_app.
  fold (strings.hasUpper (utf8.EncodeRune r)).
  rewrite hasUpper_EncodeRune by assumption. exact IH.
Qed.

(** *** ToLower leaves a sanitized name as it is *)

Section Idempotence.
Variable To_LowerCase : Z -> Z.
Hypothesis To_LowerCase_valid :
  forall r, unicode.MaxASCII < r -> utf8.ValidRune r = true ->
            utf8.ValidRune (To_LowerCase r) = true.
Hypothesis To_LowerCase_lower :
  forall r, unicode.MaxASCII < r -> utf8.ValidRune r = true ->
            unicode.ToLower To_LowerCase (To_LowerCase r) = To_LowerCase r.

Local Abbreviation lower := (unicode.ToLower To_LowerCase).

Lemma ToLower_rune_valid (c : Z) :
  utf8.ValidRune c = true -> utf8.ValidRune (lower c) = true.
Proof.
  intros Hv. unfold unicode.ToLower, unicode.MaxASCII in *.
  destruct (Z.leb_spec c 0x7F) as [Hc|Hc];
    [|by apply To_LowerCase_valid].
  apply ValidRune_spec in Hv. apply ValidRune_spec. unfold surrogate in *.
  destruct ((65 <=? c) && (c <=? 90)); lia.
Qed.

Lemma ToLower_rune_idem (c : Z) :
  utf8.ValidRune c = true -> lower (lower c) = lower c.
Proof.
  intros Hv. unfold unicode.ToLower at 2 3. unfold unicode.MaxASCII in *.
  destruct (Z.leb_spec c 0x7F) as [Hc|Hc];
    [|by apply To_LowerCase_lower].
  unfold unicode.ToLower, unicode.MaxASCII.
  destruct (Z.leb_spec 65 c), (Z.leb_spec c 90); cbn [andb];
    decide_tests; reflexivity.
Qed.

Lemma ToLower_rune_not_upper (c : Z) :
  utf8.ValidRune c = true -> ~ 65 <= lower c <= 90.
Proof.
  intros Hv Hup. pose proof (ToLower_rune_idem c Hv) as Hid.
  unfold unicode.ToLower at 1 in Hid. unfold unicode.MaxASCII in Hid.
  destruct (Z.leb_spec (lower c) 0x7F); [|lia].
  destruct (Z.leb_spec 65 (lower c)), (Z.leb_spec (lower c) 90);
    cbn [andb] in Hid; lia.
Qed.

Lemma ToLower_rune_hyphenated (c : Z) :
  utf8.ValidRune c = true ->
  lower (hyphenateRune (lower c)) = hyphenateRune (lower c).
Proof.
  intros Hv. unfold hyphenateRune.
  destruct (Z.eqb_spec (lower c) 32); [reflexivity|].
  by apply ToLower_rune_idem.
Qed.

Lemma ToLower_sanitized (x : string) :
  let y := string_map hyphenate (strings.ToLower To_LowerCase x) in
  strings.ToLower To_LowerCase y = y.
Proof.
  cbv zeta. destruct (strings.isASCII x) eqn:Hascii.
  - rewrite (ToLower_ASCII To_LowerCase x Hascii).
    destruct (sanitize_ASCII_clean x Hascii) as [Ha Hu].
    unfold strings.ToLower. by rewrite Ha, Hu.
  - pose proof (runes_valid x) as Hvx.
    assert (Forall (fun r => utf8.ValidRune r = true)
                   (map lower (utf8.runes x))) as Hvm.
    { apply Forall_map. eapply List.Forall_impl; [|exact Hvx].
      intros c Hc. by apply ToLower_rune_valid. }
    assert (strings.ToLower To_LowerCase x
            = encodeRunes (map lower (utf8.runes x))) as ->.
    { unfold strings.ToLower. rewrite Hascii. apply Map_encodeRunes.
      eapply List.Forall_impl; [|exact Hvx]. intros c Hc.
      by apply ToLower_rune_valid. }
    rewrite hyphenate_encodeRunes by exact Hvm.
    assert (Forall (fun r => utf8.ValidRune r = true)
                   (map hyphenateRune (map lower (utf8.runes x)))) as Hvh.
    { apply Forall_map. eapply List.Forall_impl; [|exact Hvm].
      intros r Hr. by apply ValidRune_hyphenateRune. }
    apply ToLower_fixed.
    + apply hasUpper_encodeRunes. rewrite map_map. apply Forall_map.
      eapply List.Forall_impl; [|exact Hvx]. intros c Hc. cbv beta. split.
      * by apply ValidRune_hyphenateRune, ToLower_rune_valid.
      * pose proof (ToLower_rune_not_upper c Hc) as Hnu.
        unfold hyphenateRune. destruct (Z.eqb_spec (lower c) 32); lia.
    + intros _. rewrite Map_encodeRunes; rewrite runes_encodeRunes by exact Hvh.
      * f_equal. rewrite !map_map. apply map_ext_in. intros c Hin.
        apply ToLower_rune_hyphenated.
        rewrite List.Forall_forall in Hvx. by apply Hvx.
      * rewrite !map_map. apply Forall_map.
        eapply List.Forall_impl; [|exact Hvx]. intros c Hc. cbv beta.
        rewrite ToLower_rune_hyphenated by exact Hc.
        by apply ValidRune_hyphenateRune, ToLower_rune_valid.
Qed.

Lemma sanitizeResourceName_idempotent (x : string) :
  sanitizeResourceName To_LowerCase (sanitizeResourceName To_LowerCase x)
  = sanitizeResourceName To_LowerCase x.
Proof.
  unfold sanitizeResourceName. rewrite !Replace_space_hyphen.
  rewrite ToLower_sanitized. apply string_map_hyphenate_idem.
Qed.
End Idempotence.

Lemma latin1Table_valid (r : Z) :
  unicode.MaxASCII < r -> utf8.ValidRune r = true ->
  utf8.ValidRune (latin1Table r) = true.
Proof.
  intros Hr Hv. apply ValidRune_spec in Hv. apply ValidRune_spec.
  unfold latin1Table, surrogate, unicode.MaxASCII in *.
  destruct (Z.leb_spec 0xC0 r), (Z.leb_spec r 0xDE), (Z.eqb_spec r 0xD7),
    (Z.eqb_spec r 0x212A); cbn [andb negb]; lia.
Qed.

Lemma latin1Table_lower (r : Z) :
  unicode.MaxASCII < r -> utf8.ValidRune r = true ->
  unicode.ToLower latin1Table (latin1Table r) = latin1Table r.
Proof.
  intros Hr _. unfold unicode.ToLower, latin1Table, unicode.MaxASCII in *.
  decide_tests; lia.
Qed.

(** C7.  [sanitizeResourceName] maps "My Check" to "my-check", and applying
    it twice gives what applying it once gives, for every string.  The case
    table of the Go library is a parameter: it is taken to map a valid rune
    above ASCII to a valid rune that is its own lower case. *)
Theorem C7_sanitizeResourceName_example_and_idempotent :
  forall To_LowerCase : Z -> Z,
    (forall r, unicode.MaxASCII < r -> utf8.ValidRune r = true ->
               utf8.ValidRune (To_LowerCase r) = true) ->
    (forall r, unicode.MaxASCII < r -> utf8.ValidRune r = true ->
               unicode.ToLower To_LowerCase (To_LowerCase r)
               = To_LowerCase r) ->
    sanitizeResourceName To_LowerCase "My Check" = "my-check"
    /\ forall x : string,
        sanitizeResourceName To_LowerCase
          (sanitizeResourceName To_LowerCase x)
        = sanitizeResourceName To_LowerCase x.
Proof.
  intros tbl Hvalid Hlower. split; [reflexivity|].
  intros x. by apply sanitizeResourceName_idempotent.
Qed.

Lemma C7_sanitizeResourceName_example_and_idempotent_witness :
  sanitizeResourceName latin1Table "My Check" = "my-check"
  /\ forall x : string,
      sanitizeResourceName latin1Table (sanitizeResourceName latin1Table x)
      = sanitizeResourceName latin1Table x.
Proof.
  apply (C7_sanitizeResourceName_example_and_idempotent latin1Table).
  - exact latin1Table_valid.
  - exact latin1Table_lower.
Defined.

(** The sanitizer on a name with letters outside ASCII. *)
Example sanitize_latin1 :
  sanitizeResourceName latin1Table
    (String (byte_chr 0xC3) (String (byte_chr 0x89) "tat Du Disque"))
  = String (byte_chr 0xC3) (String (byte_chr 0xA9) "tat-du-disque").
Proof. reflexivity. Qed.

(** ** Running the functions of crd.go against a client *)

Section Runs.
Context {W : Type}.
Variable client : Client W.
Variable To_LowerCase : Z -> Z.
Variable podHostname : string.
Variable stateCRDResource : string.

Local Abbreviation sanitize := (sanitizeResourceName To_LowerCase).

Lemma run_from_bind {A B : Type} (m : Go A) (f : A -> Go B) w done :
  run_from client (bind m f) w done =
  let o := run_from client m w done in
  run_from client (f (result o)) (world o) (rev (trace o)).
Proof.
  revert w done. induction m as [a | c k IH]; intros w done; simpl.
  - by rewrite rev_involutive.
  - destruct (client c w) as [r w']. apply IH.
Qed.

(** The run of [ensureStateResourceExists], call by call. *)
Lemma ensureStateResourceExists_run checkName checkNamespace workload w :
  let name := sanitize checkName in
  let get := khStateClient_Get stateCRDResource name checkNamespace in
  let create :=
    khStateClient_Create
      (khstatecrd.NewKuberhealthyState name
         (health.NewWorkloadDetails workload))
      stateCRDResource checkNamespace in
  run client
      (ensureStateResourceExists To_LowerCase stateCRDResource
                                 checkName checkNamespace workload) w =
  match client get w with
  | ((state, None), w1) =>
    {| result := None; world := w1;
       trace := [(get, StateReply state None)] |}
  | ((state, Some err), w1) =>
    if isNotFoundClass err then
      match client create w1 with
      | ((created, err'), w2) =>
        {| result :=
             match err' with
             | Some err' =>
               Some (errors.New ("Error creating custom resource: "
                                 +:+ name +:+ ": " +:+ Error err'))
             | None => None
             end;
           world := w2;
           trace := [(get, StateReply state (Some err));
                     (create, StateReply created err')] |}
      end
    else
      {| result := Some err; world := w1;
         trace := [(get, StateReply state (Some err))] |}
  end.
Proof.
  intros name get create.
  unfold run, ensureStateResourceExists, isNotFoundClass. simpl.
  fold name. fold get.
  destruct (client get w) as [[state [err|]] w1]; simpl; [|done].
  destruct (k8sErrors.IsNotFound err || strings.Contains (Error err) _);
    simpl; [|done].
  fold create.
  by destruct (client create w1) as [[created [err'|]] w2].
Qed.

(** The run of [setCheckStateResource], call by call. *)
Lemma setCheckStateResource_run checkName checkNamespace state w :
  let name := sanitize checkName in
  let get := khStateClient_Get stateCRDResource name checkNamespace in
  run client
      (setCheckStateResource To_LowerCase podHostname stateCRDResource
                             checkName checkNamespace state) w =
  match client get w with
  | ((existingState, Some err), w1) =>
    {| result := Some (errors.New ("Error retrieving CRD for: " +:+ name
                                   +:+ " " +:+ Error err));
       world := w1;
       trace := [(get, StateReply existingState (Some err))] |}
  | ((existingState, None), w1) =>
    match client time_Now w1 with
    | (now, w2) =>
      let khState :=
        khstatecrd.SetResourceVersion
          (khstatecrd.NewKuberhealthyState name
             (health.set_LastRun
                (health.set_AuthoritativePod state podHostname) now))
          (khstatecrd.GetResourceVersion existingState) in
      let update :=
        khStateClient_Update khState stateCRDResource name
                             checkNamespace in
      match client update w2 with
      | ((updated, err), w3) =>
        {| result := err; world := w3;
           trace := [(get, StateReply existingState None);
                     (time_Now, TimeReply now);
                     (update, StateReply updated err)] |}
      end
    end
  end.
Proof.
  intros name get.
  unfold run, setCheckStateResource. simpl. fold name. fold get.
  destruct (client get w) as [[existingState [err|]] w1]; simpl; [done|].
  destruct (client time_Now w1) as [now w2]; simpl.
  by destruct (client (khStateClient_Update _ _ _ _) w2)
    as [[updated err] w3].
Qed.

(** The run of [setJobPhase], call by call. *)
Lemma setJobPhase_run jobName jobNamespace jobPhase w :
  let get := khJobClient_Get jobNamespace jobName in
  run client (setJobPhase jobName jobNamespace jobPhase) w =
  match client get w with
  | ((kj, Some err), w1) =>
    {| result := Some err; world := w1;
       trace := [(get, JobReply kj (Some err))] |}
  | ((kj, None), w1) =>
    let updatedJob :=
      v1.set_Spec_Phase
        (v1.SetResourceVersion
           (v1.NewKuberhealthyJob jobName jobNamespace (v1.Spec kj))
           (v1.GetResourceVersion kj))
        jobPhase in
    let update := khJobClient_Update jobNamespace updatedJob in
    match client update w1 with
    | ((updated, err), w2) =>
      {| result := err; world := w2;
         trace := [(get, JobReply kj None);
                   (update, JobReply updated err)] |}
    end
  end.
Proof.
  intros get. unfold run, setJobPhase. simpl. fold get.
  destruct (client get w) as [[kj [err|]] w1]; simpl; [done|].
  by destruct (client (khJobClient_Update _ _) w1) as [[updated err] w2].
Qed.

(** The run of the reader of a kind: the run of
    [ensureStateResourceExists], and a second [Get] when it succeeds. *)
Lemma ensure_then_fetch_run kind name namespace w :
  let identifier := sanitize name in
  let get := khStateClient_Get stateCRDResource identifier namespace in
  let ensured :=
    run client
        (ensureStateResourceExists To_LowerCase stateCRDResource
                                   name namespace kind) w in
  run client
      (ensure_then_fetch To_LowerCase stateCRDResource kind name namespace)
      w =
  match result ensured with
  | Some cause =>
    {| result := (health.NewWorkloadDetails kind,
                  Some (ExistenceCheckFailed identifier cause));
       world := world ensured; trace := trace ensured |}
  | None =>
    match client get (world ensured) with
    | ((document, err), w') =>
      {| result :=
           match err with
           | Some cause =>
             (health.NewWorkloadDetails kind,
              Some (FetchFailed identifier cause))
           | None => (khstatecrd.Spec document, None)
           end;
         world := w';
         trace := trace ensured ++ [(get, StateReply document err)] |}
    end
  end.
Proof.
  intros identifier get ensured.
  unfold run, ensure_then_fetch, mbind, Go_bind.
  rewrite run_from_bind. cbv zeta.
  change (run_from client (ensureStateResourceExists _ _ _ _ _) w [])
    with ensured.
  fold identifier. fold get. clearbody ensured.
  destruct ensured as [[cause|] w1 tr]; simpl.
  - by rewrite rev_involutive.
  - destruct (client get w1) as [[document err] w'].
    destruct err; simpl; by rewrite rev_involutive.
Qed.

End Runs.

(** Case analysis on a membership in an explicit trace. *)
Ltac trace_cases H :=
  simpl in H;
  repeat match type of H with
         | _ \/ _ => destruct H as [H | H]
         | False => destruct H
         | (_, _) = (_, _) => inversion H; subst; clear H
         end.

(** ** The existence ensurer *)

(** C1, as amended.  When the create of [ensureStateResourceExists] fails
    with AlreadyExists (the get before it reported the document absent, and
    another writer created it in between), the function returns a failure:
    a new error whose text is "Error creating custom resource: ", the
    sanitized name, ": " and the text of the AlreadyExists error. *)
Theorem C1_already_exists_is_reported_as_failure :
  forall (W : Type) (client : Client W) (To_LowerCase : Z -> Z)
         (stateCRDResource checkName checkNamespace : string)
         (workload : health.KHWorkload) (w : W),
    let o := run client
                 (ensureStateResourceExists To_LowerCase stateCRDResource
                    checkName checkNamespace workload) w in
    forall c created err,
      In (c, StateReply created (Some err)) (trace o) ->
      isCreate c = true ->
      k8sErrors.IsAlreadyExists err = true ->
      result o =
      Some (errors.New ("Error creating custom resource: "
                        +:+ sanitizeResourceName To_LowerCase checkName
                        +:+ ": " +:+ Error err)).
Proof.
  intros W client tbl res checkName ns workload w o c created err Hin Hc _.
  subst o. rewrite ensureStateResourceExists_run in *. cbv zeta in *.
  destruct (client _ w) as [[state [e|]] w1].
  - destruct (isNotFoundClass e).
    + destruct (client _ w1) as [[created' err'] w2].
      trace_cases Hin; [discriminate Hc | reflexivity].
    + trace_cases Hin. discriminate Hc.
  - trace_cases Hin.
Qed.

Lemma C1_already_exists_is_reported_as_failure_witness :
  let o := run scripted.client
               (ensureStateResourceExists noCaseTable "khstates"
                  "DB Ping" "ops" health.KHCheck) examples.lostRace in
  result o =
  Some (errors.New ("Error creating custom resource: "
                    +:+ sanitizeResourceName noCaseTable "DB Ping"
                    +:+ ": " +:+ Error examples.alreadyExists)).
Proof.
  apply (C1_already_exists_is_reported_as_failure
           scripted.Script scripted.client noCaseTable "khstates" "DB Ping"
           "ops" health.KHCheck examples.lostRace
           (khStateClient_Create
              (khstatecrd.NewKuberhealthyState "db-ping"
                 (health.NewWorkloadDetails health.KHCheck))
              "khstates" "ops")
           khstatecrd.empty examples.alreadyExists).
  - simpl. right. left. reflexivity.
  - reflexivity.
  - reflexivity.
Defined.

(** C1 as it is written fails: the get reports NotFound, the create reports
    AlreadyExists, and the function does not return success. *)
Lemma C1_counterexample_lost_race :
  let o := run scripted.client
               (ensureStateResourceExists noCaseTable "khstates"
                  "DB Ping" "ops" health.KHCheck) examples.lostRace in
  map snd (trace o) =
    [StateReply khstatecrd.empty (Some examples.notFound);
     StateReply khstatecrd.empty (Some examples.alreadyExists)]
  /\ k8sErrors.IsNotFound examples.notFound = true
  /\ k8sErrors.IsAlreadyExists examples.alreadyExists = true
  /\ result o <> None.
Proof. vm_compute. repeat split; discriminate. Qed.

(** C8, as amended.  In [ensureStateResourceExists] an error of the first
    get that is not in the NotFound class (neither a NotFound status nor a
    text holding "not found") is returned as it is; an error of the create
    step is returned inside a new error whose text is "Error creating custom
    resource: ", the sanitized name, ": " and the text of the error. *)
Theorem C8_get_error_unchanged_create_error_wrapped :
  forall (W : Type) (client : Client W) (To_LowerCase : Z -> Z)
         (stateCRDResource checkName checkNamespace : string)
         (workload : health.KHWorkload) (w : W),
    let o := run client
                 (ensureStateResourceExists To_LowerCase stateCRDResource
                    checkName checkNamespace workload) w in
    (forall c state err,
        In (c, StateReply state (Some err)) (trace o) ->
        isCreate c = false ->
        isNotFoundClass err = false ->
        result o = Some err)
    /\
    (forall c state err,
        In (c, StateReply state (Some err)) (trace o) ->
        isCreate c = true ->
        result o =
        Some (errors.New ("Error creating custom resource: "
                          +:+ sanitizeResourceName To_LowerCase checkName
                          +:+ ": " +:+ Error err))).
Proof.
  intros W client tbl res checkName ns workload w o.
  subst o. rewrite ensureStateResourceExists_run. cbv zeta.
  destruct (client _ w) as [[state [e|]] w1].
  - destruct (isNotFoundClass e) eqn:Hclass.
    + destruct (client _ w1) as [[created err'] w2].
      split; intros c st err Hin Hc; [intros Hnf|]; trace_cases Hin;
        try discriminate Hc; try reflexivity; congruence.
    + split; intros c st err Hin Hc; [intros Hnf|]; trace_cases Hin;
        try discriminate Hc; reflexivity.
  - split; intros c st err Hin Hc; [intros Hnf|]; trace_cases Hin.
Qed.

Lemma C8_get_error_unchanged_create_error_wrapped_witness :
  (let o := run scripted.client
                (ensureStateResourceExists noCaseTable "khstates"
                   "DB Ping" "ops" health.KHCheck)
                {| scripted.stateAnswers :=
                     [(khstatecrd.empty, Some examples.timedOut)];
                   scripted.jobAnswers := []; scripted.ticks := 0 |} in
   result o = Some examples.timedOut)
  /\
  (let o := run scripted.client
                (ensureStateResourceExists noCaseTable "khstates"
                   "DB Ping" "ops" health.KHCheck)
                examples.createTimesOut in
   result o =
   Some (errors.New ("Error creating custom resource: "
                     +:+ sanitizeResourceName noCaseTable "DB Ping"
                     +:+ ": " +:+ Error examples.timedOut))).
Proof.
  split.
  - apply (proj1 (C8_get_error_unchanged_create_error_wrapped
                    scripted.Script scripted.client noCaseTable "khstates"
                    "DB Ping" "ops" health.KHCheck _)
                 (khStateClient_Get "khstates" "db-ping" "ops")
                 khstatecrd.empty examples.timedOut).
    + simpl. left. reflexivity.
    + reflexivity.
    + reflexivity.
  - apply (proj2 (C8_get_error_unchanged_create_error_wrapped
                    scripted.Script scripted.client noCaseTable "khstates"
                    "DB Ping" "ops" health.KHCheck _)
                 (khStateClient_Create
                    (khstatecrd.NewKuberhealthyState "db-ping"
                       (health.NewWorkloadDetails health.KHCheck))
                    "khstates" "ops")
                 khstatecrd.empty examples.timedOut).
    + simpl. right. left. reflexivity.
    + reflexivity.
Defined.

(** C8 as it is written fails.  The error of the create step does not come
    back as it is; and an error of the get that is no NotFound status, but
    whose text holds "not found", does not come back at all when the create
    succeeds. *)
Lemma C8_counterexample_create_error_rewrapped :
  (let o := run scripted.client
                (ensureStateResourceExists noCaseTable "khstates"
                   "DB Ping" "ops" health.KHCheck)
                examples.createTimesOut in
   In (khStateClient_Create
         (khstatecrd.NewKuberhealthyState "db-ping"
            (health.NewWorkloadDetails health.KHCheck)) "khstates" "ops",
       StateReply khstatecrd.empty (Some examples.timedOut)) (trace o)
   /\ result o <> Some examples.timedOut)
  /\
  (let o := run scripted.client
                (ensureStateResourceExists noCaseTable "khstates"
                   "DB Ping" "ops" health.KHCheck)
                examples.misread in
   In (khStateClient_Get "khstates" "db-ping" "ops",
       StateReply khstatecrd.empty (Some examples.backendLost)) (trace o)
   /\ k8sErrors.IsNotFound examples.backendLost = false
   /\ result o <> Some examples.backendLost).
Proof.
  split; split.
  - vm_compute. right. left. reflexivity.
  - vm_compute. discriminate.
  - vm_compute. left. reflexivity.
  - split; [reflexivity|]. vm_compute. discriminate.
Qed.



(** ** The state writer *)

Lemma append_assoc (a b c : string) : (a +:+ b) +:+ c = a +:+ (b +:+ c).
Proof.
  induction a as [|x a IH]; [reflexivity|].
  change (String x ((a +:+ b) +:+ c) = String x (a +:+ (b +:+ c))).
  by rewrite IH.
Qed.

Lemma Contains_app_r (a b substr : string) :
  strings.Contains b substr = true ->
  strings.Contains (a +:+ b) substr = true.
Proof.
  intros Hb. induction a as [|c a IH]; [exact Hb|].
  change (String c a +:+ b) with (String c (a +:+ b)).
  cbn [strings.Contains]. rewrite IH. apply orb_true_r.
Qed.

(** C3, as amended.  When the get of [setCheckStateResource] reports the
    document absent (a NotFound status), the function fails with a new
    plain error whose text is "Error retrieving CRD for: ", the sanitized
    name, a space and the text of the error of the get; the NotFound
    status is not kept: [k8sErrors.IsNotFound] is false on the error
    returned.  The get is the only call: no create and no update is
    issued.  On the in-memory store, when the key of the sanitized name
    holds no document, the store is left as it was and holds no document
    under that key afterwards. *)
Theorem C3_setCheckStateResource_absent_plain_error_no_create :
  forall (W : Type) (client : Client W) (To_LowerCase : Z -> Z)
         (podHostname stateCRDResource checkName checkNamespace : string)
         (state : health.WorkloadDetails),
    let name := sanitizeResourceName To_LowerCase checkName in
    let get := khStateClient_Get stateCRDResource name checkNamespace in
    let set :=
      setCheckStateResource To_LowerCase podHostname stateCRDResource
                            checkName checkNamespace state in
    (forall (w w1 : W) (existingState : khstatecrd.KuberhealthyState)
            (err : error),
        client get w = ((existingState, Some err), w1) ->
        k8sErrors.IsNotFound err = true ->
        let o := run client set w in
        result o = Some (errors.New ("Error retrieving CRD for: " +:+ name
                                     +:+ " " +:+ Error err))
        /\ (forall e, result o = Some e -> k8sErrors.IsNotFound e = false)
        /\ trace o = [(get, StateReply existingState (Some err))]
        /\ Forall (fun e => isWrite (fst e) = false) (trace o)
        /\ world o = w1)
    /\
    (forall s : memstore.Store,
        memstore.khstates s !! (stateCRDResource, checkNamespace, name)
          = None ->
        let o := run memstore.client set s in
        result o =
          Some (errors.New
                  ("Error retrieving CRD for: " +:+ name +:+ " "
                   +:+ Error (k8sErrors.NewNotFound stateCRDResource name)))
        /\ (forall e, result o = Some e -> k8sErrors.IsNotFound e = false)
        /\ Forall (fun e => isWrite (fst e) = false) (trace o)
        /\ world o = s
        /\ memstore.khstates (world o)
             !! (stateCRDResource, checkNamespace, name) = None).
Proof.
  intros W client tbl pod res checkName ns state name get set. split.
  - intros w w1 existing err Hget _ o. subst o set.
    rewrite setCheckStateResource_run. cbv zeta. fold name. fold get.
    rewrite Hget. cbn [result trace world].
    split; [reflexivity|]. split; [|split; [reflexivity|]].
    + intros e He. injection He as <-. reflexivity.
    + split; [repeat constructor | reflexivity].
  - intros s Habsent o. subst o set.
    rewrite setCheckStateResource_run. cbv zeta. fold name.
    simpl memstore.client. unfold memstore.stateGet. rewrite Habsent.
    cbn [result trace world].
    split; [reflexivity|]. split; [|split; [repeat constructor|]].
    + intros e He. injection He as <-. reflexivity.
    + split; [reflexivity | exact Habsent].
Qed.

Lemma C3_setCheckStateResource_absent_plain_error_no_create_witness :
  (let o := run scripted.client
                (setCheckStateResource noCaseTable "kuberhealthy-0"
                   "khstates" "DB Ping" "ops" examples.passed)
                examples.absent in
   result o = Some (errors.New ("Error retrieving CRD for: " +:+ "db-ping"
                                +:+ " " +:+ Error examples.vanished))
   /\ (forall e, result o = Some e -> k8sErrors.IsNotFound e = false)
   /\ trace o = [(khStateClient_Get "khstates" "db-ping" "ops",
                  StateReply khstatecrd.empty (Some examples.vanished))]
   /\ Forall (fun e => isWrite (fst e) = false) (trace o)
   /\ world o = {| scripted.stateAnswers := [];
                   scripted.jobAnswers := [];
                   scripted.ticks := 1000 |})
  /\
  (let o := run memstore.client
                (setCheckStateResource noCaseTable "kuberhealthy-0"
                   "khstates" "DB Ping" "ops" examples.passed)
                memstore.empty in
   result o =
     Some (errors.New
             ("Error retrieving CRD for: " +:+ "db-ping" +:+ " "
              +:+ Error (k8sErrors.NewNotFound "khstates" "db-ping")))
   /\ (forall e, result o = Some e -> k8sErrors.IsNotFound e = false)
   /\ Forall (fun e => isWrite (fst e) = false) (trace o)
   /\ world o = memstore.empty
   /\ memstore.khstates (world o) !! ("khstates", "ops", "db-ping") = None).
Proof.
  split.
  - apply (proj1 (C3_setCheckStateResource_absent_plain_error_no_create
                    scripted.Script scripted.client noCaseTable
                    "kuberhealthy-0" "khstates" "DB Ping" "ops"
                    examples.passed)
                 examples.absent
                 {| scripted.stateAnswers := [];
                    scripted.jobAnswers := [];
                    scripted.ticks := 1000 |}
                 khstatecrd.empty examples.vanished).
    + reflexivity.
    + reflexivity.
  - apply (proj2 (C3_setCheckStateResource_absent_plain_error_no_create
                    scripted.Script scripted.client noCaseTable
                    "kuberhealthy-0" "khstates" "DB Ping" "ops"
                    examples.passed)
                 memstore.empty).
    reflexivity.
Defined.

(** C3 as it is written fails in its first half: the error returned is
    not in the NotFound class.  With no document in the store, the error
    returned has no NotFound status; and when the get reports the document
    absent by a NotFound status whose text does not hold "not found", the
    error returned passes neither test of line 75. *)
Lemma C3_counterexample_not_found_status_lost :
  (let o := run memstore.client
                (setCheckStateResource noCaseTable "kuberhealthy-0"
                   "khstates" "DB Ping" "ops" examples.passed)
                memstore.empty in
   memstore.khstates memstore.empty !! ("khstates", "ops", "db-ping") = None
   /\ exists e, result o = Some e /\ k8sErrors.IsNotFound e = false)
  /\
  (let o := run scripted.client
                (setCheckStateResource noCaseTable "kuberhealthy-0"
                   "khstates" "DB Ping" "ops" examples.passed)
                examples.absent in
   map snd (trace o) = [StateReply khstatecrd.empty (Some examples.vanished)]
   /\ k8sErrors.IsNotFound examples.vanished = true
   /\ exists e, result o = Some e
                /\ k8sErrors.IsNotFound e = false
                /\ strings.Contains (Error e) "not found" = false
                /\ isNotFoundClass e = false).
Proof.
  split.
  - split; [reflexivity|]. eexists. split; reflexivity.
  - split; [reflexivity|]. split; [reflexivity|].
    eexists. split; [reflexivity|]. repeat split; vm_compute; reflexivity.
Qed.

(** C4.  When the get of [setCheckStateResource] finds a document, the
    function asks for the time and then issues one update; the document of
    that update has [AuthoritativePod] equal to [podHostname], [LastRun]
    equal to the time just read, and the resource version of the document
    the get returned.  What the update returns is the result. *)
Theorem C4_setCheckStateResource_stamps_written_document :
  forall (W : Type) (client : Client W) (To_LowerCase : Z -> Z)
         (podHostname stateCRDResource checkName checkNamespace : string)
         (state : health.WorkloadDetails) (w w1 : W)
         (existingState : khstatecrd.KuberhealthyState),
    let name := sanitizeResourceName To_LowerCase checkName in
    client (khStateClient_Get stateCRDResource name checkNamespace) w
      = ((existingState, None), w1) ->
    let o := run client
                 (setCheckStateResource To_LowerCase podHostname
                    stateCRDResource checkName checkNamespace state) w in
    exists (now : time.Time) (khState updated : khstatecrd.KuberhealthyState),
      trace o =
        [(khStateClient_Get stateCRDResource name checkNamespace,
          StateReply existingState None);
         (time_Now, TimeReply now);
         (khStateClient_Update khState stateCRDResource name checkNamespace,
          StateReply updated (result o))]
      /\ health.AuthoritativePod (khstatecrd.Spec khState) = podHostname
      /\ health.LastRun (khstatecrd.Spec khState) = now
      /\ khstatecrd.GetResourceVersion khState
         = khstatecrd.GetResourceVersion existingState
      /\ khstatecrd.GetName khState = name
      /\ health.OK (khstatecrd.Spec khState) = health.OK state
      /\ health.Errors (khstatecrd.Spec khState) = health.Errors state.
Proof.
  intros W client tbl pod res checkName ns state w w1 existing name Hget o.
  subst o. rewrite setCheckStateResource_run. cbv zeta. fold name.
  rewrite Hget.
  destruct (client time_Now w1) as [now w2].
  destruct (client _ w2) as [[updated err] w3]. simpl.
  exists now. eexists. exists updated. repeat split.
Qed.

Lemma C4_setCheckStateResource_stamps_written_document_witness :
  let o := run memstore.client
               (setCheckStateResource noCaseTable "kuberhealthy-0"
                  "khstates" "DB Ping" "ops" examples.passed)
               examples.store in
  exists (now : time.Time) (khState updated : khstatecrd.KuberhealthyState),
    trace o =
      [(khStateClient_Get "khstates" "db-ping" "ops",
        StateReply examples.dbPing None);
       (time_Now, TimeReply now);
       (khStateClient_Update khState "khstates" "db-ping" "ops",
        StateReply updated (result o))]
    /\ health.AuthoritativePod (khstatecrd.Spec khState) = "kuberhealthy-0"
    /\ health.LastRun (khstatecrd.Spec khState) = now
    /\ khstatecrd.GetResourceVersion khState
       = khstatecrd.GetResourceVersion examples.dbPing
    /\ khstatecrd.GetName khState = "db-ping"
    /\ health.OK (khstatecrd.Spec khState) = health.OK examples.passed
    /\ health.Errors (khstatecrd.Spec khState)
       = health.Errors examples.passed.
Proof.
  apply (C4_setCheckStateResource_stamps_written_document
           memstore.Store memstore.client noCaseTable "kuberhealthy-0"
           "khstates" "DB Ping" "ops" examples.passed examples.store
           examples.store examples.dbPing).
  reflexivity.
Defined.

(** C5.  [setCheckStateResource] and [setJobPhase] issue one update at
    most, against any client; and when that update reports a Conflict, the
    error of the update is the result of the function. *)
Theorem C5_conflict_is_returned_without_retry :
  forall (W : Type) (client : Client W) (To_LowerCase : Z -> Z)
         (podHostname stateCRDResource : string) (w : W),
    (forall checkName checkNamespace state,
        let o := run client
                     (setCheckStateResource To_LowerCase podHostname
                        stateCRDResource checkName checkNamespace state) w in
        (length (filter (fun e => isUpdate (fst e)) (trace o)) <= 1)%nat
        /\ forall c updated err,
            In (c, StateReply updated (Some err)) (trace o) ->
            isUpdate c = true ->
            k8sErrors.IsConflict err = true ->
            result o = Some err)
    /\
    (forall jobName jobNamespace jobPhase,
        let o := run client (setJobPhase jobName jobNamespace jobPhase) w in
        (length (filter (fun e => isUpdate (fst e)) (trace o)) <= 1)%nat
        /\ forall c updated err,
            In (c, JobReply updated (Some err)) (trace o) ->
            isUpdate c = true ->
            k8sErrors.IsConflict err = true ->
            result o = Some err).
Proof.
  intros W client tbl pod res w. split.
  - intros checkName ns state o. subst o.
    rewrite setCheckStateResource_run. cbv zeta.
    destruct (client _ w) as [[existing [e|]] w1].
    + split; [simpl; lia|]. intros c u err Hin Hc _. trace_cases Hin.
      discriminate Hc.
    + destruct (client time_Now w1) as [now w2].
      destruct (client _ w2) as [[updated err'] w3].
      split; [simpl; lia|]. intros c u err Hin Hc _. trace_cases Hin.
      reflexivity.
  - intros jobName ns phase o. subst o.
    rewrite setJobPhase_run. cbv zeta.
    destruct (client _ w) as [[kj [e|]] w1].
    + split; [simpl; lia|]. intros c u err Hin Hc _. trace_cases Hin.
      discriminate Hc.
    + destruct (client _ w1) as [[updated err'] w2].
      split; [simpl; lia|]. intros c u err Hin Hc _. trace_cases Hin.
      reflexivity.
Qed.

Lemma C5_conflict_is_returned_without_retry_witness :
  result (run scripted.client
              (setCheckStateResource noCaseTable "kuberhealthy-0" "khstates"
                 "DB Ping" "ops" examples.passed) examples.overtaken)
    = Some examples.staleVersion
  /\ result (run scripted.client
                 (setJobPhase "nightly-job" "ops" "Completed")
                 examples.overtaken)
     = Some examples.staleVersion.
Proof.
  split.
  - apply (proj2 (proj1 (C5_conflict_is_returned_without_retry
                           scripted.Script scripted.client noCaseTable
                           "kuberhealthy-0" "khstates" examples.overtaken)
                        "DB Ping" "ops" examples.passed)
                 (khStateClient_Update
                    (khstatecrd.SetResourceVersion
                       (khstatecrd.NewKuberhealthyState "db-ping"
                          (health.set_LastRun
                             (health.set_AuthoritativePod examples.passed
                                "kuberhealthy-0") 1000)) "7")
                    "khstates" "db-ping" "ops")
                 khstatecrd.empty examples.staleVersion).
    + simpl. right. right. left. reflexivity.
    + reflexivity.
    + reflexivity.
  - apply (proj2 (proj2 (C5_conflict_is_returned_without_retry
                           scripted.Script scripted.client noCaseTable
                           "kuberhealthy-0" "khstates" examples.overtaken)
                        "nightly-job" "ops" "Completed")
                 (khJobClient_Update "ops"
                    (v1.set_Spec_Phase examples.nightly "Completed"))
                 v1.empty examples.staleVersion).
    + simpl. right. left. reflexivity.
    + reflexivity.
    + reflexivity.
Defined.

(** ** The job phase transitioner *)

(** C2, as amended.  When the get of [setJobPhase] returns a job document,
    the document of the update that follows has the name and the namespace
    given to [setJobPhase], the spec of the fetched document with
    [Spec.Phase] set to the requested phase, and the resource version of
    the fetched document.  The other metadata of the fetched document (uid,
    labels, annotations, finalizers) is not carried over: the document
    written has none. *)
Theorem C2_setJobPhase_rebuilds_document_with_phase :
  forall (W : Type) (client : Client W)
         (jobName jobNamespace : string) (jobPhase : v1.JobPhase)
         (w w1 : W) (kj : v1.KuberhealthyJob),
    client (khJobClient_Get jobNamespace jobName) w = ((kj, None), w1) ->
    let o := run client (setJobPhase jobName jobNamespace jobPhase) w in
    exists (updatedJob stored : v1.KuberhealthyJob),
      trace o =
        [(khJobClient_Get jobNamespace jobName, JobReply kj None);
         (khJobClient_Update jobNamespace updatedJob,
          JobReply stored (result o))]
      /\ v1.Phase (v1.Spec updatedJob) = jobPhase
      /\ v1.Payload (v1.Spec updatedJob) = v1.Payload (v1.Spec kj)
      /\ v1.GetResourceVersion updatedJob = v1.GetResourceVersion kj
      /\ v1.GetName updatedJob = jobName
      /\ v1.GetNamespace updatedJob = jobNamespace
      /\ metav1.UID (v1.ObjectMeta updatedJob) = EmptyString
      /\ metav1.Labels (v1.ObjectMeta updatedJob) = ∅
      /\ metav1.Annotations (v1.ObjectMeta updatedJob) = ∅
      /\ metav1.Finalizers (v1.ObjectMeta updatedJob) = [].
Proof.
  intros W client jobName ns phase w w1 kj Hget o. subst o.
  rewrite setJobPhase_run. cbv zeta. rewrite Hget.
  destruct (client _ w1) as [[stored err] w2]. cbn [trace result].
  eexists. exists stored. split; [reflexivity|]. repeat split.
Qed.

Lemma C2_setJobPhase_rebuilds_document_with_phase_witness :
  let o := run memstore.client
               (setJobPhase "nightly-job" "ops" "Completed")
               examples.labelledStore in
  exists (updatedJob stored : v1.KuberhealthyJob),
    trace o =
      [(khJobClient_Get "ops" "nightly-job", JobReply examples.labelled None);
       (khJobClient_Update "ops" updatedJob, JobReply stored (result o))]
    /\ v1.Phase (v1.Spec updatedJob) = "Completed"
    /\ v1.Payload (v1.Spec updatedJob)
       = v1.Payload (v1.Spec examples.labelled)
    /\ v1.GetResourceVersion updatedJob
       = v1.GetResourceVersion examples.labelled
    /\ v1.GetName updatedJob = "nightly-job"
    /\ v1.GetNamespace updatedJob = "ops"
    /\ metav1.UID (v1.ObjectMeta updatedJob) = EmptyString
    /\ metav1.Labels (v1.ObjectMeta updatedJob) = ∅
    /\ metav1.Annotations (v1.ObjectMeta updatedJob) = ∅
    /\ metav1.Finalizers (v1.ObjectMeta updatedJob) = [].
Proof.
  apply (C2_setJobPhase_rebuilds_document_with_phase
           memstore.Store memstore.client "nightly-job" "ops" "Completed"
           examples.labelledStore examples.labelledStore examples.labelled).
  reflexivity.
Defined.

(** C2 as it is written fails: the job fetched has a uid, a label and a
    finalizer, and the document written back is not the fetched one with
    the phase replaced, for it has none of the three. *)
Lemma C2_counterexample_metadata_not_carried_over :
  let o := run memstore.client
               (setJobPhase "nightly-job" "ops" "Completed")
               examples.labelledStore in
  exists (updatedJob stored : v1.KuberhealthyJob),
    trace o =
      [(khJobClient_Get "ops" "nightly-job", JobReply examples.labelled None);
       (khJobClient_Update "ops" updatedJob, JobReply stored None)]
    /\ v1.GetName examples.labelled = "nightly-job"
    /\ v1.GetNamespace examples.labelled = "ops"
    /\ updatedJob <> v1.set_Spec_Phase examples.labelled "Completed"
    /\ metav1.Finalizers (v1.ObjectMeta examples.labelled)
       = ["kuberhealthy/cleanup"]
    /\ metav1.Finalizers (v1.ObjectMeta updatedJob) = []
    /\ metav1.Finalizers (v1.ObjectMeta stored) = [].
Proof.
  eexists _, _. split; [reflexivity|]. repeat split.
  intros Heq.
  apply (f_equal (fun j => metav1.Finalizers (v1.ObjectMeta j))) in Heq.
  discriminate Heq.
Qed.

(** ** Store keys *)

Lemma namesOf_app (t1 t2 : list (Call * Reply)) :
  namesOf (t1 ++ t2) = namesOf t1 ++ namesOf t2.
Proof. unfold namesOf. apply flat_map_app. Qed.

Lemma ensureStateResourceExists_names {W : Type} (client : Client W)
      (To_LowerCase : Z -> Z) (stateCRDResource checkName ns : string)
      (workload : health.KHWorkload) (w : W) :
  Forall (eq (sanitizeResourceName To_LowerCase checkName))
         (namesOf (trace (run client
                              (ensureStateResourceExists To_LowerCase
                                 stateCRDResource checkName ns workload) w))).
Proof.
  rewrite ensureStateResourceExists_run. cbv zeta.
  destruct (client _ w) as [[state [e|]] w1].
  - destruct (isNotFoundClass e).
    + destruct (client _ w1) as [[created err'] w2]. simpl.
      repeat constructor.
    + simpl. repeat constructor.
  - simpl. repeat constructor.
Qed.

Lemma ensure_then_fetch_names {W : Type} (client : Client W)
      (To_LowerCase : Z -> Z) (stateCRDResource name ns : string)
      (kind : health.KHWorkload) (w : W) :
  Forall (eq (sanitizeResourceName To_LowerCase name))
         (namesOf (trace (run client
                              (ensure_then_fetch To_LowerCase
                                 stateCRDResource kind name ns) w))).
Proof.
  rewrite ensure_then_fetch_run. cbv zeta.
  pose proof (ensureStateResourceExists_names client To_LowerCase
                stateCRDResource name ns kind w) as Hens.
  destruct (run client (ensureStateResourceExists _ _ _ _ _) w)
    as [[cause|] w1 tr]; simpl in *; [exact Hens|].
  destruct (client _ w1) as [[document err] w2]. simpl.
  rewrite namesOf_app. apply Forall_app. split; [exact Hens|].
  simpl. repeat constructor.
Qed.

(** C6, as amended.  The four operations on state documents
    ([setCheckStateResource], [ensureStateResourceExists], [getCheckState],
    [getJobState]) hand the store no name but the sanitized one, as key and
    inside the documents they send.  [setJobPhase] hands the job store the
    job name as it received it. *)
Theorem C6_state_operations_use_sanitized_name :
  forall (W : Type) (client : Client W) (To_LowerCase : Z -> Z)
         (podHostname stateCRDResource raw namespace : string) (w : W),
    let key := sanitizeResourceName To_LowerCase raw in
    (forall state,
        Forall (eq key)
          (namesOf (trace (run client
                               (setCheckStateResource To_LowerCase
                                  podHostname stateCRDResource raw namespace
                                  state) w))))
    /\ (forall workload,
           Forall (eq key)
             (namesOf (trace (run client
                                  (ensureStateResourceExists To_LowerCase
                                     stateCRDResource raw namespace workload)
                                  w))))
    /\ Forall (eq key)
         (namesOf (trace (run client
                              (getCheckState To_LowerCase stateCRDResource
                                 {| Name := raw;
                                    CheckNamespace := namespace |}) w)))
    /\ Forall (eq key)
         (namesOf (trace (run client
                              (getJobState To_LowerCase stateCRDResource
                                 {| Name := raw;
                                    CheckNamespace := namespace |}) w)))
    /\ (forall jobPhase,
           Forall (eq raw)
             (namesOf (trace (run client
                                  (setJobPhase raw namespace jobPhase) w)))).
Proof.
  intros W client tbl pod res raw ns w key. subst key. repeat split.
  - intros state. rewrite setCheckStateResource_run. cbv zeta.
    destruct (client _ w) as [[existing [e|]] w1].
    + simpl. repeat constructor.
    + destruct (client time_Now w1) as [now w2].
      destruct (client _ w2) as [[updated err] w3]. simpl.
      repeat constructor.
  - intros workload. apply ensureStateResourceExists_names.
  - apply (ensure_then_fetch_names client tbl res raw ns health.KHCheck w).
  - apply (ensure_then_fetch_names client tbl res raw ns health.KHJob w).
  - intros phase. rewrite setJobPhase_run. cbv zeta.
    destruct (client _ w) as [[kj [e|]] w1].
    + simpl. repeat constructor.
    + destruct (client _ w1) as [[updated err] w2]. simpl.
      repeat constructor.
Qed.

(** C6 as it is written fails for [setJobPhase]: the name it hands to the
    job store is the one it received, not the sanitized one. *)
Lemma C6_counterexample_setJobPhase_raw_name :
  let o := run memstore.client
               (setJobPhase "Nightly Job" "ops" "Completed")
               examples.store in
  map fst (trace o) = [khJobClient_Get "ops" "Nightly Job"]
  /\ sanitizeResourceName noCaseTable "Nightly Job" = "nightly-job"
  /\ ~ Forall (eq (sanitizeResourceName noCaseTable "Nightly Job"))
              (namesOf (trace o)).
Proof.
  split; [reflexivity|]. split; [reflexivity|].
  intros H. vm_compute in H. inversion H as [|x l Heq Hrest]. discriminate Heq.
Qed.

(** ** The two readers *)

(** C9.  [getCheckState] and [getJobState] are the one reader of the
    specification (ensure the document exists, fetch it, return its
    payload) taken at kind KHCheck and at kind KHJob.  Run on the same name
    and namespace from the same store, they make the same calls with the
    same keys and get the same answers, return the same error and the same
    payload, and leave the same documents, up to the kind written in the
    default document. *)
Theorem C9_readers_are_one_function_of_the_kind :
  forall (To_LowerCase : Z -> Z) (stateCRDResource : string)
         (c : KuberhealthyCheck),
    getCheckState To_LowerCase stateCRDResource c
    = ensure_then_fetch To_LowerCase stateCRDResource health.KHCheck
                        (Name c) (CheckNamespace c)
    /\ getJobState To_LowerCase stateCRDResource c
       = ensure_then_fetch To_LowerCase stateCRDResource health.KHJob
                           (Name c) (CheckNamespace c)
    /\ forall s : memstore.Store,
        let oc := run memstore.client
                      (getCheckState To_LowerCase stateCRDResource c) s in
        let oj := run memstore.client
                      (getJobState To_LowerCase stateCRDResource c) s in
        map forgetKindEvent (trace oc) = map forgetKindEvent (trace oj)
        /\ map (fun e => callNames (fst e)) (trace oc)
           = map (fun e => callNames (fst e)) (trace oj)
        /\ forgetKind (fst (result oc)) = forgetKind (fst (result oj))
        /\ snd (result oc) = snd (result oj)
        /\ forgetKindState <$> memstore.khstates (world oc)
           = forgetKindState <$> memstore.khstates (world oj)
        /\ memstore.khjobs (world oc) = memstore.khjobs (world oj).
Proof.
  intros tbl res [name ns]. split; [reflexivity|]. split; [reflexivity|].
  intros s oc oj. subst oc oj.
  change (getCheckState tbl res _)
    with (ensure_then_fetch tbl res health.KHCheck name ns).
  change (getJobState tbl res _)
    with (ensure_then_fetch tbl res health.KHJob name ns).
  rewrite !ensure_then_fetch_run. cbv zeta.
  rewrite !ensureStateResourceExists_run. cbv zeta.
  simpl memstore.client. unfold memstore.stateGet.
  destruct (memstore.khstates s !! (res, ns, sanitizeResourceName tbl name))
    as [doc|] eqn:Hdoc.
  - simpl. rewrite Hdoc. simpl. repeat split.
  - change (isNotFoundClass (k8sErrors.NewNotFound res
              (sanitizeResourceName tbl name))) with true.
    cbv iota. unfold memstore.stateCreate.
    change (khstatecrd.GetName (khstatecrd.NewKuberhealthyState ?n ?d))
      with n.
    rewrite Hdoc. simpl. rewrite !lookup_insert_eq. simpl.
    repeat split. by rewrite !fmap_insert.
Qed.

(** ** Two scenarios on the in-memory store *)

(** The store holds no document for check db-ping in namespace ops.  A
    first read creates the default document; after a write of a passed
    state, a second read returns it, stamped with the writer and the time. *)
Example scenario_first_read_then_write :
  let c := {| Name := "db-ping"; CheckNamespace := "ops" |} in
  let o1 := run memstore.client (getCheckState latin1Table "khstates" c)
                memstore.empty in
  let o2 := run memstore.client
                (setCheckStateResource latin1Table "kuberhealthy-0"
                   "khstates" "db-ping" "ops" examples.passed) (world o1) in
  let o3 := run memstore.client (getCheckState latin1Table "khstates" c)
                (world o2) in
  result o1 = (health.NewWorkloadDetails health.KHCheck, None)
  /\ khstatecrd.Spec <$> memstore.khstates (world o1)
       !! ("khstates", "ops", "db-ping")
     = Some (health.NewWorkloadDetails health.KHCheck)
  /\ result o2 = None
  /\ result o3 =
     ({| health.OK := true; health.Errors := Some [];
         health.LastRun := 1000;
         health.AuthoritativePod := "kuberhealthy-0";
         health.khWorkload := Some health.KHCheck |}, None).
Proof. vm_compute. repeat split. Qed.

(** Job nightly-job is at version 3.  A first writer sets its phase through
    [setJobPhase]; a second writer that still holds version 3 gets a
    Conflict from the store, and the document of the first writer stays. *)
Example scenario_stale_writer :
  let oA := run memstore.client
                (setJobPhase "nightly-job" "ops" "Completed")
                examples.store in
  let stale := v1.set_Spec_Phase examples.nightly "Failed" in
  let '((_, err), after) := memstore.jobUpdate "ops" stale (world oA) in
  result oA = None
  /\ (v1.Phase ∘ v1.Spec) <$> memstore.khjobs (world oA)
       !! ("ops", "nightly-job") = Some "Completed"
  /\ (k8sErrors.IsConflict <$> err) = Some true
  /\ after = world oA.
Proof. vm_compute. repeat split. Qed.

(** * Further properties *)

(** *** What a sanitized name is made of *)

Lemma string_map_map (f g : ascii -> ascii) (s : string) :
  string_map f (string_map g s) = string_map (fun c => f (g c)) s.
Proof.
  induction s as [|c t IH]; [reflexivity|]. simpl. by rewrite IH.
Qed.

Lemma string_map_length (f : ascii -> ascii) (s : string) :
  String.length (string_map f s) = String.length s.
Proof.
  induction s as [|c t IH]; [reflexivity|]. simpl. by rewrite IH.
Qed.

Lemma hyphenate_no_space (s : string) :
  string_existsb (fun c => Ascii.eqb c " ") (string_map hyphenate s) = false.
Proof.
  induction s as [|c t IH]; [reflexivity|].
  cbn [string_map string_existsb]. rewrite IH. unfold hyphenate.
  destruct (Ascii.eqb_spec c " ") as [->|Hne]; [reflexivity|].
  apply orb_false_iff. split; [|reflexivity]. by apply Ascii.eqb_neq.
Qed.

(** X1.  No byte of a sanitized name is a space, whatever the name and
    whatever the case table. *)
Theorem X1_sanitized_name_has_no_space :
  forall (To_LowerCase : Z -> Z) (c : string),
    string_existsb (fun b => Ascii.eqb b " ")
                   (sanitizeResourceName To_LowerCase c) = false.
Proof.
  intros tbl c. unfold sanitizeResourceName.
  rewrite Replace_space_hyphen. apply hyphenate_no_space.
Qed.

(** X2.  On a name of ASCII bytes the sanitizer works byte by byte: a
    capital letter becomes its small letter, a space becomes a hyphen and
    every other byte (digits, periods, underscores, ...) is kept; the
    length of the name is kept. *)
Theorem X2_sanitize_ASCII_bytewise :
  forall (To_LowerCase : Z -> Z) (c : string),
    strings.isASCII c = true ->
    sanitizeResourceName To_LowerCase c
    = string_map (fun b => hyphenate (strings.lowerByte b)) c
    /\ String.length (sanitizeResourceName To_LowerCase c) = String.length c.
Proof.
  intros tbl c Hascii.
  assert (sanitizeResourceName tbl c
          = string_map (fun b => hyphenate (strings.lowerByte b)) c) as Heq.
  { unfold sanitizeResourceName.
    rewrite Replace_space_hyphen, (ToLower_ASCII tbl c Hascii).
    apply string_map_map. }
  split; [exact Heq|]. rewrite Heq. apply string_map_length.
Qed.

Lemma X2_sanitize_ASCII_bytewise_witness :
  sanitizeResourceName latin1Table "Disk_Check v1.2"
  = string_map (fun b => hyphenate (strings.lowerByte b)) "Disk_Check v1.2"
  /\ String.length (sanitizeResourceName latin1Table "Disk_Check v1.2")
     = String.length "Disk_Check v1.2".
Proof.
  apply (X2_sanitize_ASCII_bytewise latin1Table "Disk_Check v1.2").
  reflexivity.
Defined.

Lemma hyphenate_id (s : string) :
  string_existsb (fun c => Ascii.eqb c " ") s = false ->
  string_map hyphenate s = s.
Proof.
  induction s as [|c t IH]; [reflexivity|].
  cbn [string_existsb string_map]. intros H.
  apply orb_false_iff in H. destruct H as [Hc Ht].
  rewrite (IH Ht). unfold hyphenate. by rewrite Hc.
Qed.

(** X3.  A name of ASCII bytes without capital letters and without spaces
    is its own sanitized name. *)
Theorem X3_sanitize_keeps_clean_ASCII_name :
  forall (To_LowerCase : Z -> Z) (c : string),
    strings.isASCII c = true ->
    strings.hasUpper c = false ->
    string_existsb (fun b => Ascii.eqb b " ") c = false ->
    sanitizeResourceName To_LowerCase c = c.
Proof.
  intros tbl c Hascii Hupper Hspace. unfold sanitizeResourceName.
  rewrite Replace_space_hyphen, (ToLower_ASCII tbl c Hascii).
  rewrite (lowerByte_id c Hupper). by apply hyphenate_id.
Qed.

Lemma X3_sanitize_keeps_clean_ASCII_name_witness :
  sanitizeResourceName latin1Table "dns-status.internal_2"
  = "dns-status.internal_2".
Proof.
  apply (X3_sanitize_keeps_clean_ASCII_name
           latin1Table "dns-status.internal_2"); reflexivity.
Defined.

(** X4.  When the case table maps a valid rune above ASCII to a valid rune
    that is its own lower case, no byte of a sanitized name is an ASCII
    capital letter. *)
Theorem X4_sanitized_name_has_no_ASCII_capital :
  forall To_LowerCase : Z -> Z,
    (forall r, unicode.MaxASCII < r -> utf8.ValidRune r = true ->
               utf8.ValidRune (To_LowerCase r) = true) ->
    (forall r, unicode.MaxASCII < r -> utf8.ValidRune r = true ->
               unicode.ToLower To_LowerCase (To_LowerCase r)
               = To_LowerCase r) ->
    forall c : string,
      strings.hasUpper (sanitizeResourceName To_LowerCase c) = false.
Proof.
  intros tbl Hvalid Hlower c. unfold sanitizeResourceName.
  rewrite Replace_space_hyphen.
  destruct (strings.isASCII c) eqn:Hascii.
  - rewrite (ToLower_ASCII tbl c Hascii).
    by destruct (sanitize_ASCII_clean c Hascii) as [_ Hu].
  - pose proof (runes_valid c) as Hvc.
    assert (strings.ToLower tbl c
            = encodeRunes (map (unicode.ToLower tbl) (utf8.runes c))) as ->.
    { unfold strings.ToLower. rewrite Hascii. apply Map_encodeRunes.
      eapply List.Forall_impl; [|exact Hvc]. intros r Hr.
      by apply ToLower_rune_valid. }
    rewrite hyphenate_encodeRunes.
    + apply hasUpper_encodeRunes. rewrite map_map. apply Forall_map.
      eapply List.Forall_impl; [|exact Hvc]. intros r Hr. cbv beta. split.
      * by apply ValidRune_hyphenateRune, ToLower_rune_valid.
      * pose proof (ToLower_rune_not_upper tbl Hlower r Hr) as Hnu.
        unfold hyphenateRune.
        destruct (Z.eqb_spec (unicode.ToLower tbl r) 32); lia.
    + apply Forall_map. eapply List.Forall_impl; [|exact Hvc].
      intros r Hr. by apply ToLower_rune_valid.
Qed.

Lemma X4_sanitized_name_has_no_ASCII_capital_witness :
  strings.hasUpper
    (sanitizeResourceName latin1Table
       (String (byte_chr 0xC3) (String (byte_chr 0x89) "tat Du Disque")))
  = false.
Proof.
  apply (X4_sanitized_name_has_no_ASCII_capital latin1Table).
  - exact latin1Table_valid.
  - exact latin1Table_lower.
Defined.

(** *** The raw name counts through its sanitized form only *)

(** X5.  Two raw names with the same sanitized name are one check to the
    four operations on state documents: the operations are the same trees
    of store calls, so they read and write the same document and return
    the same errors. *)
Theorem X5_same_sanitized_name_same_operation :
  forall (To_LowerCase : Z -> Z) (podHostname stateCRDResource : string)
         (a b namespace : string),
    sanitizeResourceName To_LowerCase a = sanitizeResourceName To_LowerCase b ->
    (forall state,
        setCheckStateResource To_LowerCase podHostname stateCRDResource
                              a namespace state
        = setCheckStateResource To_LowerCase podHostname stateCRDResource
                                b namespace state)
    /\ (forall workload,
           ensureStateResourceExists To_LowerCase stateCRDResource
                                     a namespace workload
           = ensureStateResourceExists To_LowerCase stateCRDResource
                                       b namespace workload)
    /\ getCheckState To_LowerCase stateCRDResource
                     {| Name := a; CheckNamespace := namespace |}
       = getCheckState To_LowerCase stateCRDResource
                       {| Name := b; CheckNamespace := namespace |}
    /\ getJobState To_LowerCase stateCRDResource
                   {| Name := a; CheckNamespace := namespace |}
       = getJobState To_LowerCase stateCRDResource
                     {| Name := b; CheckNamespace := namespace |}.
Proof.
  intros tbl pod res a b ns Hsame.
  assert (forall workload,
             ensureStateResourceExists tbl res a ns workload
             = ensureStateResourceExists tbl res b ns workload) as Hens.
  { intros workload. unfold ensureStateResourceExists. by rewrite Hsame. }
  repeat split.
  - intros state. unfold setCheckStateResource. by rewrite Hsame.
  - exact Hens.
  - unfold getCheckState. cbn [Name CheckNamespace]. by rewrite Hens, Hsame.
  - unfold getJobState. cbn [Name CheckNamespace]. by rewrite Hens, Hsame.
Qed.

Lemma X5_same_sanitized_name_same_operation_witness :
  (forall state,
      setCheckStateResource latin1Table "kuberhealthy-0" "khstates"
                            "DB Ping" "ops" state
      = setCheckStateResource latin1Table "kuberhealthy-0" "khstates"
                              "db-ping" "ops" state)
  /\ (forall workload,
         ensureStateResourceExists latin1Table "khstates"
                                   "DB Ping" "ops" workload
         = ensureStateResourceExists latin1Table "khstates"
                                     "db-ping" "ops" workload)
  /\ getCheckState latin1Table "khstates"
                   {| Name := "DB Ping"; CheckNamespace := "ops" |}
     = getCheckState latin1Table "khstates"
                     {| Name := "db-ping"; CheckNamespace := "ops" |}
  /\ getJobState latin1Table "khstates"
                 {| Name := "DB Ping"; CheckNamespace := "ops" |}
     = getJobState latin1Table "khstates"
                   {| Name := "db-ping"; CheckNamespace := "ops" |}.
Proof.
  apply (X5_same_sanitized_name_same_operation
           latin1Table "kuberhealthy-0" "khstates" "DB Ping" "db-ping" "ops").
  reflexivity.
Defined.

(** *** Failures of the first get *)

(** X6.  When the get of [setCheckStateResource] fails, the get is the only
    call (the clock is not read and nothing is written), and the result is
    a new plain error, "Error retrieving CRD for: " with the sanitized name
    and the text of the failure: the status of the failure is gone, so
    [k8sErrors.IsNotFound] and [k8sErrors.IsConflict] are false on the
    result whatever the failure was. *)
Theorem X6_setCheckStateResource_get_failure :
  forall (W : Type) (client : Client W) (To_LowerCase : Z -> Z)
         (podHostname stateCRDResource checkName checkNamespace : string)
         (state : health.WorkloadDetails) (w w1 : W)
         (existingState : khstatecrd.KuberhealthyState) (err : error),
    let name := sanitizeResourceName To_LowerCase checkName in
    client (khStateClient_Get stateCRDResource name checkNamespace) w
      = ((existingState, Some err), w1) ->
    let o := run client
                 (setCheckStateResource To_LowerCase podHostname
                    stateCRDResource checkName checkNamespace state) w in
    trace o = [(khStateClient_Get stateCRDResource name checkNamespace,
                StateReply existingState (Some err))]
    /\ world o = w1
    /\ result o = Some (errors.New ("Error retrieving CRD for: " +:+ name
                                    +:+ " " +:+ Error err))
    /\ (forall e, result o = Some e ->
                  k8sErrors.IsNotFound e = false
                  /\ k8sErrors.IsConflict e = false
                  /\ k8sErrors.ReasonForError e = metav1.StatusReasonUnknown).
Proof.
  intros W client tbl pod res checkName ns state w w1 existing err name
         Hget o.
  subst o. rewrite setCheckStateResource_run. cbv zeta. fold name.
  rewrite Hget. cbn [trace world result].
  split; [reflexivity|]. split; [reflexivity|]. split; [reflexivity|].
  intros e He. injection He as <-. repeat split.
Qed.

Lemma X6_setCheckStateResource_get_failure_witness :
  let o := run memstore.client
               (setCheckStateResource latin1Table "kuberhealthy-0"
                  "khstates" "DB Ping" "ops" examples.passed)
               memstore.empty in
  trace o = [(khStateClient_Get "khstates" "db-ping" "ops",
              StateReply khstatecrd.empty (Some examples.notFound))]
  /\ world o = memstore.empty
  /\ result o = Some (errors.New ("Error retrieving CRD for: " +:+ "db-ping"
                                  +:+ " " +:+ Error examples.notFound))
  /\ (forall e, result o = Some e ->
                k8sErrors.IsNotFound e = false
                /\ k8sErrors.IsConflict e = false
                /\ k8sErrors.ReasonForError e = metav1.StatusReasonUnknown).
Proof.
  apply (X6_setCheckStateResource_get_failure
           memstore.Store memstore.client latin1Table "kuberhealthy-0"
           "khstates" "DB Ping" "ops" examples.passed memstore.empty
           memstore.empty khstatecrd.empty examples.notFound).
  reflexivity.
Defined.

(** X7.  When the get of [setJobPhase] fails, the get is the only call (no
    update is issued) and the result is the error of the get itself, with
    its status: a NotFound of the store stays a NotFound for the caller. *)
Theorem X7_setJobPhase_get_failure :
  forall (W : Type) (client : Client W)
         (jobName jobNamespace : string) (jobPhase : v1.JobPhase)
         (w w1 : W) (kj : v1.KuberhealthyJob) (err : error),
    client (khJobClient_Get jobNamespace jobName) w = ((kj, Some err), w1) ->
    let o := run client (setJobPhase jobName jobNamespace jobPhase) w in
    trace o = [(khJobClient_Get jobNamespace jobName,
                JobReply kj (Some err))]
    /\ world o = w1
    /\ result o = Some err.
Proof.
  intros W client jobName ns phase w w1 kj err Hget o. subst o.
  rewrite setJobPhase_run. cbv zeta. rewrite Hget. repeat split.
Qed.

Lemma X7_setJobPhase_get_failure_witness :
  let o := run memstore.client
               (setJobPhase "weekly-job" "ops" "Completed")
               examples.store in
  trace o = [(khJobClient_Get "ops" "weekly-job",
              JobReply v1.empty
                (Some (k8sErrors.NewNotFound "khjobs" "weekly-job")))]
  /\ world o = examples.store
  /\ result o = Some (k8sErrors.NewNotFound "khjobs" "weekly-job").
Proof.
  apply (X7_setJobPhase_get_failure
           memstore.Store memstore.client "weekly-job" "ops" "Completed"
           examples.store examples.store v1.empty
           (k8sErrors.NewNotFound "khjobs" "weekly-job")).
  reflexivity.
Defined.

(** X8.  [setCheckStateResource] overwrites the [AuthoritativePod] and the
    [LastRun] of the state it is given: two states that differ in these two
    fields only lead to the same calls, the same result and the same
    world. *)
Theorem X8_setCheckStateResource_ignores_given_stamp :
  forall (W : Type) (client : Client W) (To_LowerCase : Z -> Z)
         (podHostname stateCRDResource checkName checkNamespace : string)
         (state : health.WorkloadDetails) (pod : string) (t : time.Time)
         (w : W),
    run client
        (setCheckStateResource To_LowerCase podHostname stateCRDResource
           checkName checkNamespace
           (health.set_LastRun (health.set_AuthoritativePod state pod) t)) w
    = run client
          (setCheckStateResource To_LowerCase podHostname stateCRDResource
             checkName checkNamespace state) w.
Proof.
  intros. rewrite !setCheckStateResource_run. reflexivity.
Qed.

(** *** The operations on the in-memory store *)

Section OnStore.
Variable To_LowerCase : Z -> Z.
Variable podHostname : string.
Variable stateCRDResource : string.

Local Abbreviation sanitize := (sanitizeResourceName To_LowerCase).

Lemma ensure_on_store_present checkName namespace workload s doc :
  memstore.khstates s !! (stateCRDResource, namespace, sanitize checkName)
    = Some doc ->
  run memstore.client
      (ensureStateResourceExists To_LowerCase stateCRDResource
         checkName namespace workload) s
  = {| result := None; world := s;
       trace := [(khStateClient_Get stateCRDResource (sanitize checkName)
                                    namespace,
                  StateReply doc None)] |}.
Proof.
  intros Hdoc. rewrite ensureStateResourceExists_run. cbv zeta.
  simpl memstore.client. unfold memstore.stateGet. by rewrite Hdoc.
Qed.

Lemma ensure_on_store_absent checkName namespace workload s :
  memstore.khstates s !! (stateCRDResource, namespace, sanitize checkName)
    = None ->
  let initialState :=
    khstatecrd.NewKuberhealthyState (sanitize checkName)
      (health.NewWorkloadDetails workload) in
  let stored :=
    khstatecrd.SetResourceVersion
      (khstatecrd.SetNamespace initialState namespace)
      (memstore.version_token (N.succ (memstore.revision s))) in
  run memstore.client
      (ensureStateResourceExists To_LowerCase stateCRDResource
         checkName namespace workload) s
  = {| result := None;
       world :=
         {| memstore.khstates :=
              <[(stateCRDResource, namespace, sanitize checkName) := stored]>
                (memstore.khstates s);
            memstore.khjobs := memstore.khjobs s;
            memstore.revision := N.succ (memstore.revision s);
            memstore.clock := memstore.clock s |};
       trace :=
         [(khStateClient_Get stateCRDResource (sanitize checkName) namespace,
           StateReply khstatecrd.empty
             (Some (k8sErrors.NewNotFound stateCRDResource
                      (sanitize checkName))));
          (khStateClient_Create initialState stateCRDResource namespace,
           StateReply stored None)] |}.
Proof.
  intros Habsent initialState stored.
  rewrite ensureStateResourceExists_run. cbv zeta.
  simpl memstore.client. unfold memstore.stateGet. rewrite Habsent.
  change (isNotFoundClass (k8sErrors.NewNotFound stateCRDResource
            (sanitize checkName))) with true.
  cbv iota. unfold memstore.stateCreate.
  change (khstatecrd.GetName (khstatecrd.NewKuberhealthyState ?n ?d)) with n.
  by rewrite Habsent.
Qed.

Lemma setCheckStateResource_on_store checkName namespace state s existing :
  memstore.khstates s !! (stateCRDResource, namespace, sanitize checkName)
    = Some existing ->
  let khState :=
    khstatecrd.SetResourceVersion
      (khstatecrd.NewKuberhealthyState (sanitize checkName)
         (health.set_LastRun
            (health.set_AuthoritativePod state podHostname)
            (memstore.clock s)))
      (khstatecrd.GetResourceVersion existing) in
  let stored :=
    khstatecrd.SetResourceVersion
      (khstatecrd.SetNamespace khState namespace)
      (memstore.version_token (N.succ (memstore.revision s))) in
  run memstore.client
      (setCheckStateResource To_LowerCase podHostname stateCRDResource
         checkName namespace state) s
  = {| result := None;
       world :=
         {| memstore.khstates :=
              <[(stateCRDResource, namespace, sanitize checkName) := stored]>
                (memstore.khstates s);
            memstore.khjobs := memstore.khjobs s;
            memstore.revision := N.succ (memstore.revision s);
            memstore.clock := memstore.clock s + 1 |};
       trace :=
         [(khStateClient_Get stateCRDResource (sanitize checkName) namespace,
           StateReply existing None);
          (time_Now, TimeReply (memstore.clock s));
          (khStateClient_Update khState stateCRDResource (sanitize checkName)
                                namespace,
           StateReply stored None)] |}.
Proof.
  intros Hdoc khState stored.
  rewrite setCheckStateResource_run. cbv zeta.
  simpl memstore.client. unfold memstore.stateGet. rewrite Hdoc.
  unfold memstore.now, memstore.stateUpdate. cbn [memstore.khstates].
  rewrite Hdoc.
  change (khstatecrd.GetResourceVersion (khstatecrd.SetResourceVersion ?d ?v))
    with v.
  by rewrite String.eqb_refl.
Qed.

Lemma setJobPhase_on_store jobName jobNamespace jobPhase s kj :
  memstore.khjobs s !! (jobNamespace, jobName) = Some kj ->
  let updatedJob :=
    v1.set_Spec_Phase
      (v1.SetResourceVersion
         (v1.NewKuberhealthyJob jobName jobNamespace (v1.Spec kj))
         (v1.GetResourceVersion kj)) jobPhase in
  let stored :=
    v1.SetResourceVersion updatedJob
      (memstore.version_token (N.succ (memstore.revision s))) in
  run memstore.client (setJobPhase jobName jobNamespace jobPhase) s
  = {| result := None;
       world :=
         {| memstore.khstates := memstore.khstates s;
            memstore.khjobs :=
              <[(jobNamespace, jobName) := stored]> (memstore.khjobs s);
            memstore.revision := N.succ (memstore.revision s);
            memstore.clock := memstore.clock s |};
       trace :=
         [(khJobClient_Get jobNamespace jobName, JobReply kj None);
          (khJobClient_Update jobNamespace updatedJob,
           JobReply stored None)] |}.
Proof.
  intros Hjob updatedJob stored.
  rewrite setJobPhase_run. cbv zeta.
  simpl memstore.client. unfold memstore.jobGet. rewrite Hjob.
  unfold memstore.jobUpdate.
  change (v1.GetName (v1.set_Spec_Phase
            (v1.SetResourceVersion (v1.NewKuberhealthyJob ?n ?ns ?sp) ?v) ?p))
    with n.
  rewrite Hjob.
  change (v1.GetResourceVersion (v1.set_Spec_Phase
            (v1.SetResourceVersion ?j ?v) ?p)) with v.
  by rewrite String.eqb_refl.
Qed.

End OnStore.

Lemma ensure_on_store_holds (To_LowerCase : Z -> Z)
      (stateCRDResource checkName checkNamespace : string)
      (workload : health.KHWorkload) (s : memstore.Store) :
  is_Some
    (memstore.khstates
       (world (run memstore.client
                   (ensureStateResourceExists To_LowerCase stateCRDResource
                      checkName checkNamespace workload) s))
     !! (stateCRDResource, checkNamespace,
         sanitizeResourceName To_LowerCase checkName)).
Proof.
  destruct (memstore.khstates s
              !! (stateCRDResource, checkNamespace,
                  sanitizeResourceName To_LowerCase checkName))
    as [doc|] eqn:Hdoc.
  - rewrite (ensure_on_store_present _ _ _ _ workload s doc Hdoc).
    cbn [world]. by rewrite Hdoc.
  - rewrite (ensure_on_store_absent _ _ _ _ workload s Hdoc).
    cbv zeta. cbn [world memstore.khstates]. by rewrite lookup_insert_eq.
Qed.

(** X9.  On the in-memory store [ensureStateResourceExists] always
    succeeds, and afterwards the key of the sanitized name holds a
    document.  When the key was empty the document is the default one of
    the kind, under the sanitized name, in the namespace, with the version
    the store gave it.  No other state key, no job and not the clock is
    changed. *)
Theorem X9_ensure_on_store_postcondition :
  forall (To_LowerCase : Z -> Z)
         (stateCRDResource checkName checkNamespace : string)
         (workload : health.KHWorkload) (s : memstore.Store),
    let key := (stateCRDResource, checkNamespace,
                sanitizeResourceName To_LowerCase checkName) in
    let o := run memstore.client
                 (ensureStateResourceExists To_LowerCase stateCRDResource
                    checkName checkNamespace workload) s in
    result o = None
    /\ is_Some (memstore.khstates (world o) !! key)
    /\ (memstore.khstates s !! key = None ->
        memstore.khstates (world o) !! key
        = Some {| khstatecrd.ObjectMeta :=
                    {| metav1.Name :=
                         sanitizeResourceName To_LowerCase checkName;
                       metav1.Namespace := checkNamespace;
                       metav1.ResourceVersion :=
                         memstore.version_token
                           (N.succ (memstore.revision s));
                       metav1.UID := EmptyString;
                       metav1.Labels := ∅; metav1.Annotations := ∅;
                       metav1.Finalizers := [] |};
                  khstatecrd.Spec := health.NewWorkloadDetails workload |})
    /\ (forall k, k <> key ->
                  memstore.khstates (world o) !! k
                  = memstore.khstates s !! k)
    /\ memstore.khjobs (world o) = memstore.khjobs s
    /\ memstore.clock (world o) = memstore.clock s.
Proof.
  intros tbl res checkName ns workload s key o. subst o.
  destruct (memstore.khstates s !! key) as [doc|] eqn:Hdoc.
  - rewrite (ensure_on_store_present tbl res checkName ns workload s doc Hdoc).
    cbn [result world]. repeat split; done.
  - rewrite (ensure_on_store_absent tbl res checkName ns workload s Hdoc).
    cbv zeta. cbn [result world memstore.khstates memstore.khjobs
                   memstore.clock].
    fold key. rewrite lookup_insert_eq. repeat split; try done.
    intros k Hk. by rewrite lookup_insert_ne.
Qed.

Lemma X9_ensure_on_store_postcondition_witness :
  let key := ("khstates", "ops", sanitizeResourceName latin1Table "DB Ping") in
  let o := run memstore.client
               (ensureStateResourceExists latin1Table "khstates"
                  "DB Ping" "ops" health.KHCheck) memstore.empty in
  result o = None
  /\ is_Some (memstore.khstates (world o) !! key)
  /\ (memstore.khstates memstore.empty !! key = None ->
      memstore.khstates (world o) !! key
      = Some {| khstatecrd.ObjectMeta :=
                  {| metav1.Name := sanitizeResourceName latin1Table "DB Ping";
                     metav1.Namespace := "ops";
                     metav1.ResourceVersion :=
                       memstore.version_token
                         (N.succ (memstore.revision memstore.empty));
                     metav1.UID := EmptyString;
                     metav1.Labels := ∅; metav1.Annotations := ∅;
                     metav1.Finalizers := [] |};
                khstatecrd.Spec :=
                  health.NewWorkloadDetails health.KHCheck |})
  /\ (forall k, k <> key ->
                memstore.khstates (world o) !! k
                = memstore.khstates memstore.empty !! k)
  /\ memstore.khjobs (world o) = memstore.khjobs memstore.empty
  /\ memstore.clock (world o) = memstore.clock memstore.empty.
Proof.
  exact (X9_ensure_on_store_postcondition
           latin1Table "khstates" "DB Ping" "ops" health.KHCheck
           memstore.empty).
Defined.

(** X10.  On the in-memory store [ensureStateResourceExists] is idempotent:
    a second run right after a first one succeeds with the get as its only
    call and leaves the store as the first run left it. *)
Theorem X10_ensure_on_store_idempotent :
  forall (To_LowerCase : Z -> Z)
         (stateCRDResource checkName checkNamespace : string)
         (workload workload' : health.KHWorkload) (s : memstore.Store),
    let o1 := run memstore.client
                  (ensureStateResourceExists To_LowerCase stateCRDResource
                     checkName checkNamespace workload) s in
    let o2 := run memstore.client
                  (ensureStateResourceExists To_LowerCase stateCRDResource
                     checkName checkNamespace workload') (world o1) in
    result o2 = None
    /\ world o2 = world o1
    /\ map fst (trace o2)
       = [khStateClient_Get stateCRDResource
            (sanitizeResourceName To_LowerCase checkName) checkNamespace].
Proof.
  intros tbl res checkName ns workload workload' s o1 o2.
  destruct (ensure_on_store_holds tbl res checkName ns workload s)
    as [doc Hdoc].
  fold o1 in Hdoc. subst o2.
  by rewrite (ensure_on_store_present tbl res checkName ns workload'
                (world o1) doc Hdoc).
Qed.

(** X11.  On the in-memory store, when the key of the sanitized name holds
    a document, [setCheckStateResource] succeeds and a [getCheckState] that
    follows returns the state that was given, stamped with [podHostname]
    and the time of the write, and no error.  The payload of the document
    is replaced as a whole: nothing of the old payload is kept.  No other
    state key and no job is changed. *)
Theorem X11_write_then_read_on_store :
  forall (To_LowerCase : Z -> Z)
         (podHostname stateCRDResource checkName checkNamespace : string)
         (state : health.WorkloadDetails) (s : memstore.Store)
         (existing : khstatecrd.KuberhealthyState),
    let key := (stateCRDResource, checkNamespace,
                sanitizeResourceName To_LowerCase checkName) in
    memstore.khstates s !! key = Some existing ->
    let written :=
      health.set_LastRun (health.set_AuthoritativePod state podHostname)
                         (memstore.clock s) in
    let o := run memstore.client
                 (setCheckStateResource To_LowerCase podHostname
                    stateCRDResource checkName checkNamespace state) s in
    let r := run memstore.client
                 (getCheckState To_LowerCase stateCRDResource
                    {| Name := checkName;
                       CheckNamespace := checkNamespace |}) (world o) in
    result o = None
    /\ khstatecrd.Spec <$> memstore.khstates (world o) !! key = Some written
    /\ result r = (written, None)
    /\ world r = world o
    /\ (forall k, k <> key ->
                  memstore.khstates (world o) !! k
                  = memstore.khstates s !! k)
    /\ memstore.khjobs (world o) = memstore.khjobs s.
Proof.
  intros tbl pod res checkName ns state s existing key Hdoc written o r.
  subst o r.
  rewrite (setCheckStateResource_on_store tbl pod res checkName ns state s
             existing Hdoc).
  cbv zeta. cbn [result world].
  change (getCheckState tbl res _)
    with (ensure_then_fetch tbl res health.KHCheck checkName ns).
  rewrite ensure_then_fetch_run. cbv zeta.
  erewrite ensure_on_store_present
    by (cbn [memstore.khstates]; apply lookup_insert_eq).
  cbn [result world trace]. simpl memstore.client. unfold memstore.stateGet.
  cbn [memstore.khstates memstore.khjobs]. fold key.
  rewrite lookup_insert_eq. cbn [result world].
  repeat split; try done.
  intros k Hk. by rewrite lookup_insert_ne.
Qed.

Lemma X11_write_then_read_on_store_witness :
  let written :=
    health.set_LastRun
      (health.set_AuthoritativePod examples.passed "kuberhealthy-0")
      (memstore.clock examples.store) in
  let o := run memstore.client
               (setCheckStateResource latin1Table "kuberhealthy-0"
                  "khstates" "DB Ping" "ops" examples.passed)
               examples.store in
  let r := run memstore.client
               (getCheckState latin1Table "khstates"
                  {| Name := "DB Ping"; CheckNamespace := "ops" |})
               (world o) in
  result o = None /\ result r = (written, None) /\ world r = world o.
Proof.
  destruct (X11_write_then_read_on_store
              latin1Table "kuberhealthy-0" "khstates" "DB Ping" "ops"
              examples.passed examples.store examples.dbPing)
    as (H1 & _ & H3 & H4 & _).
  - reflexivity.
  - exact (conj H1 (conj H3 H4)).
Defined.

(** X12.  On the in-memory store, when the key holds a job document,
    [setJobPhase] succeeds whatever the old and the new phase are: there is
    no check of the transition.  Afterwards the key holds the document of
    the given name and namespace with the new phase, the old payload and
    the version the store gave it; a second [setJobPhase] succeeds as well
    and its phase is the one that stays.  No other job key and no state
    document is changed. *)
Theorem X12_setJobPhase_on_store :
  forall (jobName jobNamespace : string) (jobPhase jobPhase' : v1.JobPhase)
         (s : memstore.Store) (kj : v1.KuberhealthyJob),
    memstore.khjobs s !! (jobNamespace, jobName) = Some kj ->
    let o := run memstore.client
                 (setJobPhase jobName jobNamespace jobPhase) s in
    let o' := run memstore.client
                  (setJobPhase jobName jobNamespace jobPhase') (world o) in
    result o = None
    /\ memstore.khjobs (world o) !! (jobNamespace, jobName)
       = Some {| v1.ObjectMeta :=
                   {| metav1.Name := jobName;
                      metav1.Namespace := jobNamespace;
                      metav1.ResourceVersion :=
                        memstore.version_token
                          (N.succ (memstore.revision s));
                      metav1.UID := EmptyString;
                      metav1.Labels := ∅; metav1.Annotations := ∅;
                      metav1.Finalizers := [] |};
                 v1.Spec := {| v1.Phase := jobPhase;
                               v1.Payload := v1.Payload (v1.Spec kj) |} |}
    /\ (forall k, k <> (jobNamespace, jobName) ->
                  memstore.khjobs (world o) !! k = memstore.khjobs s !! k)
    /\ memstore.khstates (world o) = memstore.khstates s
    /\ result o' = None
    /\ (v1.Spec <$> memstore.khjobs (world o') !! (jobNamespace, jobName))
       = Some {| v1.Phase := jobPhase';
                 v1.Payload := v1.Payload (v1.Spec kj) |}.
Proof.
  intros jobName ns phase phase' s kj Hjob o o'. subst o' o.
  rewrite (setJobPhase_on_store jobName ns phase s kj Hjob).
  cbv zeta. cbn [result world].
  erewrite setJobPhase_on_store
    by (cbn [memstore.khjobs]; apply lookup_insert_eq).
  cbv zeta. cbn [result world memstore.khjobs memstore.khstates].
  rewrite !lookup_insert_eq. repeat split; try done.
  intros k Hk. by rewrite lookup_insert_ne.
Qed.

Lemma X12_setJobPhase_on_store_witness :
  let o := run memstore.client
               (setJobPhase "nightly-job" "ops" "Completed")
               examples.store in
  let o' := run memstore.client
                (setJobPhase "nightly-job" "ops" "Running") (world o) in
  result o = None
  /\ result o' = None
  /\ (v1.Spec <$> memstore.khjobs (world o') !! ("ops", "nightly-job"))
     = Some {| v1.Phase := "Running";
               v1.Payload := v1.Payload (v1.Spec examples.nightly) |}.
Proof.
  destruct (X12_setJobPhase_on_store
              "nightly-job" "ops" "Completed" "Running"
              examples.store examples.nightly)
    as (H1 & _ & _ & _ & H5 & H6).
  - reflexivity.
  - exact (conj H1 (conj H5 H6)).
Defined.

Lemma read_twice_on_store (To_LowerCase : Z -> Z)
      (stateCRDResource : string) (kind : health.KHWorkload)
      (name ns : string) (s : memstore.Store) :
  let o1 := run memstore.client
                (ensure_then_fetch To_LowerCase stateCRDResource kind
                                   name ns) s in
  let o2 := run memstore.client
                (ensure_then_fetch To_LowerCase stateCRDResource kind
                                   name ns) (world o1) in
  snd (result o1) = None
  /\ result o2 = result o1
  /\ world o2 = world o1
  /\ map fst (trace o2)
     = [khStateClient_Get stateCRDResource
          (sanitizeResourceName To_LowerCase name) ns;
        khStateClient_Get stateCRDResource
          (sanitizeResourceName To_LowerCase name) ns].
Proof.
  intros o1 o2. subst o2 o1. rename To_LowerCase into tbl.
  rename stateCRDResource into res.
  rewrite (ensure_then_fetch_run memstore.client tbl res kind name ns s).
  cbv zeta.
  destruct (memstore.khstates s
              !! (res, ns, sanitizeResourceName tbl name))
    as [doc|] eqn:Hdoc.
  - rewrite (ensure_on_store_present tbl res name ns kind s doc Hdoc).
    cbn [result world trace]. simpl memstore.client.
    unfold memstore.stateGet. rewrite Hdoc. cbn [result world].
    rewrite ensure_then_fetch_run. cbv zeta.
    rewrite (ensure_on_store_present tbl res name ns kind s doc Hdoc).
    cbn [result world trace]. simpl memstore.client.
    unfold memstore.stateGet. rewrite Hdoc. repeat split.
  - rewrite (ensure_on_store_absent tbl res name ns kind s Hdoc).
    cbv zeta. cbn [result world trace]. simpl memstore.client.
    unfold memstore.stateGet. cbn [memstore.khstates].
    rewrite lookup_insert_eq. cbn [result world].
    rewrite ensure_then_fetch_run. cbv zeta.
    erewrite ensure_on_store_present
      by (cbn [memstore.khstates]; apply lookup_insert_eq).
    cbn [result world trace]. simpl memstore.client.
    unfold memstore.stateGet. cbn [memstore.khstates].
    rewrite lookup_insert_eq. repeat split.
Qed.

(** X13.  On the in-memory store a reader never fails, and reading twice
    gives the same payload: the second [getCheckState] (and likewise the
    second [getJobState]) issues two gets and no write, returns what the
    first returned and leaves the store as the first left it. *)
Theorem X13_read_twice_on_store :
  forall (To_LowerCase : Z -> Z) (stateCRDResource : string)
         (c : KuberhealthyCheck) (s : memstore.Store),
    let gets :=
      [khStateClient_Get stateCRDResource
         (sanitizeResourceName To_LowerCase (Name c)) (CheckNamespace c);
       khStateClient_Get stateCRDResource
         (sanitizeResourceName To_LowerCase (Name c)) (CheckNamespace c)] in
    (let o1 := run memstore.client
                   (getCheckState To_LowerCase stateCRDResource c) s in
     let o2 := run memstore.client
                   (getCheckState To_LowerCase stateCRDResource c)
                   (world o1) in
     snd (result o1) = None /\ result o2 = result o1
     /\ world o2 = world o1 /\ map fst (trace o2) = gets)
    /\
    (let o1 := run memstore.client
                   (getJobState To_LowerCase stateCRDResource c) s in
     let o2 := run memstore.client
                   (getJobState To_LowerCase stateCRDResource c)
                   (world o1) in
     snd (result o1) = None /\ result o2 = result o1
     /\ world o2 = world o1 /\ map fst (trace o2) = gets).
Proof.
  intros tbl res [name ns] s gets. split.
  - exact (read_twice_on_store tbl res health.KHCheck name ns s).
  - exact (read_twice_on_store tbl res health.KHJob name ns s).
Qed.

(** *** What the operations never do *)

(** X14.  Against any client neither writer ever issues a create:
    [setCheckStateResource] makes three calls at most (get, clock, update)
    and [setJobPhase] two at most (get, update), and the update is the last
    call when there is one. *)
Theorem X14_writers_never_create :
  forall (W : Type) (client : Client W) (To_LowerCase : Z -> Z)
         (podHostname stateCRDResource name namespace : string)
         (state : health.WorkloadDetails) (jobPhase : v1.JobPhase) (w : W),
    let oc := run client
                  (setCheckStateResource To_LowerCase podHostname
                     stateCRDResource name namespace state) w in
    let oj := run client (setJobPhase name namespace jobPhase) w in
    (map (fun e => isCreate (fst e)) (trace oc) = [false]
     /\ map (fun e => isUpdate (fst e)) (trace oc) = [false]
     \/ map (fun e => isCreate (fst e)) (trace oc) = [false; false; false]
        /\ map (fun e => isUpdate (fst e)) (trace oc) = [false; false; true])
    /\
    (map (fun e => isCreate (fst e)) (trace oj) = [false]
     /\ map (fun e => isUpdate (fst e)) (trace oj) = [false]
     \/ map (fun e => isCreate (fst e)) (trace oj) = [false; false]
        /\ map (fun e => isUpdate (fst e)) (trace oj) = [false; true]).
Proof.
  intros W client tbl pod res name ns state phase w oc oj. subst oc oj.
  rewrite setCheckStateResource_run, setJobPhase_run. cbv zeta. split.
  - destruct (client _ w) as [[existing [e|]] w1]; [by left|].
    destruct (client time_Now w1) as [now w2].
    destruct (client _ w2) as [[updated err] w3]. by right.
  - destruct (client (khJobClient_Get _ _) w) as [[kj [e|]] w1]; [by left|].
    destruct (client _ w1) as [[updated err] w2]. by right.
Qed.

Lemma HasPrefix_app (p t : string) : strings.HasPrefix (p +:+ t) p = true.
Proof.
  unfold strings.HasPrefix. induction p as [|a p IH].
  - by destruct t.
  - rewrite append_cons. cbn [String.prefix].
    destruct (ascii_dec a a) as [_|Hne]; [exact IH | by destruct Hne].
Qed.

Ltac plain_wrapped_error :=
  repeat split;
  unfold ExistenceCheckFailed, FetchFailed, errors.New; cbn [Error];
  rewrite HasPrefix_app; rewrite ?orb_true_r; reflexivity.

(** X15.  Against any client, a reader that fails returns the default
    payload of its kind (never a part of a fetched document) and a plain
    error, without status, whose text starts with the step that failed; it
    never issues an update and never reads the clock, and makes three calls
    at most. *)
Theorem X15_reader_failure :
  forall (W : Type) (client : Client W) (To_LowerCase : Z -> Z)
         (stateCRDResource : string) (kind : health.KHWorkload)
         (c : KuberhealthyCheck) (w : W),
    let o := run client
                 (match kind with
                  | health.KHCheck =>
                    getCheckState To_LowerCase stateCRDResource c
                  | health.KHJob =>
                    getJobState To_LowerCase stateCRDResource c
                  end) w in
    (forall e, snd (result o) = Some e ->
               fst (result o) = health.NewWorkloadDetails kind
               /\ k8sErrors.ReasonForError e = metav1.StatusReasonUnknown
               /\ (strings.HasPrefix (Error e) "Error validating CRD exists: "
                   || strings.HasPrefix (Error e)
                        "Error retrieving custom khstate resource: ") = true)
    /\ Forall (fun e => isUpdate (fst e) = false /\ fst e <> time_Now)
              (trace o)
    /\ (length (trace o) <= 3)%nat.
Proof.
  intros W client tbl res kind [name ns] w o.
  assert (o = run client (ensure_then_fetch tbl res kind name ns) w) as ->
    by (subst o; by destruct kind).
  rewrite ensure_then_fetch_run. cbv zeta.
  rewrite ensureStateResourceExists_run. cbv zeta.
  destruct (client _ w) as [[state [e0|]] w1].
  - destruct (isNotFoundClass e0).
    + destruct (client (khStateClient_Create _ _ _) w1)
        as [[created [e1|]] w2]; cbn [result world trace].
      * split; [|split; [repeat constructor; done | simpl; lia]].
        intros e He. cbn [snd fst] in *. injection He as <-.
        plain_wrapped_error.
      * destruct (client _ w2) as [[document [e2|]] w3];
          cbn [result world trace app];
          (split; [|split; [repeat constructor; done | simpl; lia]]);
          intros e He; cbn [snd fst] in *; [|discriminate He].
        injection He as <-. plain_wrapped_error.
    + cbn [result world trace].
      split; [|split; [repeat constructor; done | simpl; lia]].
      intros e He. cbn [snd fst] in *. injection He as <-. plain_wrapped_error.
  - cbn [result world trace].
    destruct (client _ w1) as [[document [e2|]] w3];
      cbn [result world trace app];
      (split; [|split; [repeat constructor; done | simpl; lia]]);
      intros e He; cbn [snd fst] in *; [|discriminate He].
    injection He as <-. plain_wrapped_error.
Qed.

Lemma X15_reader_failure_witness :
  let o := run scripted.client
               (getCheckState latin1Table "khstates"
                  {| Name := "DB Ping"; CheckNamespace := "ops" |})
               examples.lostRace in
  exists e,
    snd (result o) = Some e
    /\ fst (result o) = health.NewWorkloadDetails health.KHCheck
    /\ k8sErrors.ReasonForError e = metav1.StatusReasonUnknown
    /\ (strings.HasPrefix (Error e) "Error validating CRD exists: "
        || strings.HasPrefix (Error e)
             "Error retrieving custom khstate resource: ") = true.
Proof.
  eexists. split; [reflexivity|].
  apply (proj1 (X15_reader_failure
                  scripted.Script scripted.client latin1Table "khstates"
                  health.KHCheck
                  {| Name := "DB Ping"; CheckNamespace := "ops" |}
                  examples.lostRace)).
  reflexivity.
Defined.

(** X16.  Against any client [ensureStateResourceExists] issues a create
    only as its second call, after a get that failed with an error of the
    NotFound class; the document it sends is the default document of the
    kind under the sanitized name, without a version.  It never issues an
    update and never reads the clock. *)
Theorem X16_ensure_create_only_after_not_found :
  forall (W : Type) (client : Client W) (To_LowerCase : Z -> Z)
         (stateCRDResource checkName checkNamespace : string)
         (workload : health.KHWorkload) (w : W),
    let name := sanitizeResourceName To_LowerCase checkName in
    let o := run client
                 (ensureStateResourceExists To_LowerCase stateCRDResource
                    checkName checkNamespace workload) w in
    (forall c r, In (c, r) (trace o) -> isCreate c = true ->
                 c = khStateClient_Create
                       {| khstatecrd.ObjectMeta :=
                            {| metav1.Name := name;
                               metav1.Namespace := EmptyString;
                               metav1.ResourceVersion := EmptyString;
                               metav1.UID := EmptyString;
                               metav1.Labels := ∅; metav1.Annotations := ∅;
                               metav1.Finalizers := [] |};
                          khstatecrd.Spec :=
                            health.NewWorkloadDetails workload |}
                       stateCRDResource checkNamespace
                 /\ exists state err,
                     trace o =
                       [(khStateClient_Get stateCRDResource name
                                           checkNamespace,
                         StateReply state (Some err)); (c, r)]
                     /\ isNotFoundClass err = true)
    /\ Forall (fun e => isUpdate (fst e) = false /\ fst e <> time_Now)
              (trace o).
Proof.
  intros W client tbl res checkName ns workload w name o. subst o.
  rewrite ensureStateResourceExists_run. cbv zeta. fold name.
  destruct (client _ w) as [[state [e|]] w1].
  - destruct (isNotFoundClass e) eqn:Hclass.
    + destruct (client _ w1) as [[created err'] w2].
      split; [|repeat constructor; done].
      intros c r Hin Hc. trace_cases Hin; [discriminate Hc|].
      split; [reflexivity|]. by exists state, e.
    + split; [|repeat constructor; done].
      intros c r Hin Hc. trace_cases Hin. discriminate Hc.
  - split; [|repeat constructor; done].
    intros c r Hin Hc. trace_cases Hin. discriminate Hc.
Qed.

Lemma X16_ensure_create_only_after_not_found_witness :
  let o := run scripted.client
               (ensureStateResourceExists latin1Table "khstates"
                  "DB Ping" "ops" health.KHCheck) examples.lostRace in
  let create :=
    khStateClient_Create
      {| khstatecrd.ObjectMeta :=
           {| metav1.Name := sanitizeResourceName latin1Table "DB Ping";
              metav1.Namespace := EmptyString;
              metav1.ResourceVersion := EmptyString;
              metav1.UID := EmptyString;
              metav1.Labels := ∅; metav1.Annotations := ∅;
              metav1.Finalizers := [] |};
         khstatecrd.Spec := health.NewWorkloadDetails health.KHCheck |}
      "khstates" "ops" in
  let reply := StateReply khstatecrd.empty (Some examples.alreadyExists) in
  create = create
  /\ exists state err,
      trace o =
        [(khStateClient_Get "khstates"
            (sanitizeResourceName latin1Table "DB Ping") "ops",
          StateReply state (Some err)); (create, reply)]
      /\ isNotFoundClass err = true.
Proof.
  apply (proj1 (X16_ensure_create_only_after_not_found
                  scripted.Script scripted.client latin1Table "khstates"
                  "DB Ping" "ops" health.KHCheck examples.lostRace)
               (khStateClient_Create
                  (khstatecrd.NewKuberhealthyState "db-ping"
                     (health.NewWorkloadDetails health.KHCheck))
                  "khstates" "ops")
               (StateReply khstatecrd.empty (Some examples.alreadyExists))).
  - simpl. right. left. reflexivity.
  - reflexivity.
Defined.

(** X17.  From any state of the in-memory store, ensuring the document and
    then writing a state succeeds, and the read that follows returns the
    state written, stamped with [podHostname] and the time of the write. *)
Theorem X17_ensure_write_read_on_store :
  forall (To_LowerCase : Z -> Z)
         (podHostname stateCRDResource checkName checkNamespace : string)
         (state : health.WorkloadDetails) (s : memstore.Store),
    let o1 := run memstore.client
                  (ensureStateResourceExists To_LowerCase stateCRDResource
                     checkName checkNamespace health.KHCheck) s in
    let o2 := run memstore.client
                  (setCheckStateResource To_LowerCase podHostname
                     stateCRDResource checkName checkNamespace state)
                  (world o1) in
    let o3 := run memstore.client
                  (getCheckState To_LowerCase stateCRDResource
                     {| Name := checkName;
                        CheckNamespace := checkNamespace |}) (world o2) in
    result o1 = None
    /\ result o2 = None
    /\ result o3 =
       (health.set_LastRun (health.set_AuthoritativePod state podHostname)
                           (memstore.clock s), None).
Proof.
  intros tbl pod res checkName ns state s o1 o2 o3.
  destruct (ensure_on_store_holds tbl res checkName ns health.KHCheck s)
    as [doc Hdoc].
  assert (result o1 = None /\ memstore.clock (world o1) = memstore.clock s)
    as [H1 Hclock].
  { subst o1.
    destruct (memstore.khstates s !! (res, ns, sanitizeResourceName tbl
                                                  checkName))
      as [d|] eqn:Hd.
    - by rewrite (ensure_on_store_present tbl res checkName ns
                    health.KHCheck s d Hd).
    - by rewrite (ensure_on_store_absent tbl res checkName ns
                    health.KHCheck s Hd). }
  fold o1 in Hdoc. split; [exact H1|].
  subst o3 o2.
  rewrite (setCheckStateResource_on_store tbl pod res checkName ns state
             (world o1) doc Hdoc).
  cbv zeta. cbn [result world]. split; [reflexivity|].
  change (getCheckState tbl res _)
    with (ensure_then_fetch tbl res health.KHCheck checkName ns).
  rewrite ensure_then_fetch_run. cbv zeta.
  erewrite ensure_on_store_present
    by (cbn [memstore.khstates]; apply lookup_insert_eq).
  cbn [result world trace]. simpl memstore.client. unfold memstore.stateGet.
  cbn [memstore.khstates]. rewrite lookup_insert_eq. cbn [result].
  by rewrite Hclock.
Qed.

Lemma Contains_self (s : string) : strings.Contains s s = true.
Proof.
  assert (strings.HasPrefix s s = true) as H.
  { unfold strings.HasPrefix. induction s as [|a s IH]; [reflexivity|].
    cbn [String.prefix].
    destruct (ascii_dec a a) as [_|Hne]; [exact IH | by destruct Hne]. }
  destruct s; cbn [strings.Contains]; by rewrite H.
Qed.

Ltac carries_text :=
  unfold ExistenceCheckFailed, FetchFailed, errors.New; cbn [Error];
  repeat apply Contains_app_r; apply Contains_self.

(** X18.  Against any client, an error returned by one of the five
    operations stems from a store call of the run that failed, and the text
    of that failure is part of the text of the error returned: no operation
    makes up a failure, and none loses the text of its cause. *)
Theorem X18_returned_error_carries_cause :
  forall (W : Type) (client : Client W) (To_LowerCase : Z -> Z)
         (podHostname stateCRDResource name namespace : string) (w : W),
    (forall state,
        let o := run client
                     (setCheckStateResource To_LowerCase podHostname
                        stateCRDResource name namespace state) w in
        carriesCause o (result o))
    /\ (forall workload,
           let o := run client
                        (ensureStateResourceExists To_LowerCase
                           stateCRDResource name namespace workload) w in
           carriesCause o (result o))
    /\ (let o := run client
                     (getCheckState To_LowerCase stateCRDResource
                        {| Name := name; CheckNamespace := namespace |}) w in
        carriesCause o (snd (result o)))
    /\ (let o := run client
                     (getJobState To_LowerCase stateCRDResource
                        {| Name := name; CheckNamespace := namespace |}) w in
        carriesCause o (snd (result o)))
    /\ (forall jobPhase,
           let o := run client (setJobPhase name namespace jobPhase) w in
           carriesCause o (result o)).
Proof.
  intros W client tbl pod res name ns w.
  assert (forall kind,
             let o := run client
                          (ensure_then_fetch tbl res kind name ns) w in
             carriesCause o (snd (result o))) as Hread.
  { intros kind o e' He'. subst o.
    rewrite ensure_then_fetch_run in *. cbv zeta in *.
    rewrite ensureStateResourceExists_run in *. cbv zeta in *.
    destruct (client _ w) as [[state [e|]] w1].
    - destruct (isNotFoundClass e).
      + destruct (client (khStateClient_Create _ _ _) w1)
          as [[created [e1|]] w2]; cbn [result world trace snd] in *.
        * injection He' as <-. eexists _, _, e1.
          split; [right; left; reflexivity|].
          split; [reflexivity | carries_text].
        * destruct (client _ w2) as [[document [e2|]] w3];
            cbn [result trace snd app] in *; [|discriminate He'].
          injection He' as <-. eexists _, _, e2.
          split; [right; right; left; reflexivity|].
          split; [reflexivity | carries_text].
      + cbn [result world trace snd] in *. injection He' as <-.
        eexists _, _, e.
        split; [left; reflexivity|]. split; [reflexivity | carries_text].
    - cbn [result world trace] in *.
      destruct (client _ w1) as [[document [e2|]] w3];
        cbn [result trace snd app] in *; [|discriminate He'].
      injection He' as <-. eexists _, _, e2.
      split; [right; left; reflexivity|].
      split; [reflexivity | carries_text]. }
  split; [|split; [|split; [|split]]].
  - intros state o e' He'. subst o.
    rewrite setCheckStateResource_run in *. cbv zeta in *.
    destruct (client _ w) as [[existing [e|]] w1]; cbn [result trace] in *.
    + injection He' as <-. eexists _, _, e.
      split; [left; reflexivity|]. split; [reflexivity | carries_text].
    + destruct (client time_Now w1) as [now w2].
      destruct (client _ w2) as [[updated err] w3]. cbn [result trace] in *.
      subst err. eexists _, _, e'.
      split; [right; right; left; reflexivity|].
      split; [reflexivity | apply Contains_self].
  - intros workload o e' He'. subst o.
    rewrite ensureStateResourceExists_run in *. cbv zeta in *.
    destruct (client _ w) as [[state [e|]] w1]; cbn [result] in *;
      [|discriminate He'].
    destruct (isNotFoundClass e).
    + destruct (client _ w1) as [[created [e1|]] w2]; cbn [result trace] in *;
        [|discriminate He'].
      injection He' as <-. eexists _, _, e1.
      split; [right; left; reflexivity|]. split; [reflexivity | carries_text].
    + cbn [result trace] in *. injection He' as <-. eexists _, _, e.
      split; [left; reflexivity|].
      split; [reflexivity | apply Contains_self].
  - exact (Hread health.KHCheck).
  - exact (Hread health.KHJob).
  - intros phase o e' He'. subst o.
    rewrite setJobPhase_run in *. cbv zeta in *.
    destruct (client _ w) as [[kj [e|]] w1]; cbn [result trace] in *.
    + injection He' as <-. eexists _, _, e.
      split; [left; reflexivity|].
      split; [reflexivity | apply Contains_self].
    + destruct (client _ w1) as [[updated err] w2]. cbn [result trace] in *.
      subst err. eexists _, _, e'.
      split; [right; left; reflexivity|].
      split; [reflexivity | apply Contains_self].
Qed.

Lemma X18_returned_error_carries_cause_witness :
  let o := run scripted.client
               (getCheckState latin1Table "khstates"
                  {| Name := "DB Ping"; CheckNamespace := "ops" |})
               examples.lostRace in
  exists e',
    snd (result o) = Some e'
    /\ exists c r e,
        In (c, r) (trace o) /\ replyError r = Some e
        /\ strings.Contains (Error e') (Error e) = true.
Proof.
  eexists. split; [reflexivity|].
  apply (proj1 (proj2 (proj2 (X18_returned_error_carries_cause
                                scripted.Script scripted.client latin1Table
                                "kuberhealthy-0" "khstates" "DB Ping" "ops"
                                examples.lostRace)))).
  reflexivity.
Defined.
